(** * Auto-GPT file operations: a shallow embedding of
      [autogpt/commands/file_operations.py] and the properties of its
      path guard, operation log, chunker and line editor. *)

From Stdlib Require Import ZArith Ascii DecimalString Lia.
From stdpp Require Import gmap strings list.

Local Open Scope Z_scope.

(** ** Python values that the module passes around *)

(** The exceptions that can occur in the module.  All of them are
    subclasses of [Exception], so every [except Exception] clause catches
    each of them. *)
Inductive exn : Type :=
| ValueError (msg : string)
| IndexError (msg : string)
| TypeError (msg : string)
| NameError (name : string)
| RecursionError
| FileNotFoundError (path : string)
| IsADirectoryError (path : string)
| NotADirectoryError (path : string)
| FileExistsError (path : string).

(** The outcome of running a Python function: it returns or it raises. *)
Inductive outcome (A : Type) : Type :=
| Return (a : A)
| Raise (e : exn).
Arguments Return {A} a.
Arguments Raise {A} e.

Definition outcome_bind {A B} (o : outcome A) (k : A -> outcome B) : outcome B :=
  match o with
  | Return a => k a
  | Raise e => Raise e
  end.

(** ** String primitives of Python, on [string] *)

Module PyStr.

(** [s.startswith(p)] *)
Definition startswith (s p : string) : bool := String.prefix p s.

(** [s.endswith(p)], by comparing the tail of [s] of the length of [p]. *)
Definition endswith (s p : string) : bool :=
  let n := String.length s in
  let k := String.length p in
  if (k <=? n)%nat
  then bool_decide (String.substring (n - k) k s = p)
  else false.

(** [sub in s] *)
Fixpoint contains (sub s : string) : bool :=
  String.prefix sub s ||
  match s with
  | EmptyString => false
  | String _ s' => contains sub s'
  end.

(** [s.split(c)] for a separator of one character. *)
Fixpoint split (c : ascii) (s : string) : list string :=
  match s with
  | EmptyString => [EmptyString]
  | String a s' =>
      if bool_decide (a = c) then EmptyString :: split c s'
      else match split c s' with
           | [] => [String a EmptyString]
           | w :: ws => String a w :: ws
           end
  end.

(** [sep.join(l)] *)
Definition join (sep : string) (l : list string) : string := String.concat sep l.

(** [c * n] for a character [c]. *)
Fixpoint repeat (c : ascii) (n : nat) : string :=
  match n with
  | O => EmptyString
  | S n' => String c (repeat c n')
  end.

(** [min(m)] and [max(m)] on a non-empty sequence of strings: the first
    smallest and the first largest element, by code point order. *)
Definition min_of (x : string) (xs : list string) : string :=
  fold_left (fun cur it => if String.ltb it cur then it else cur) xs x.
Definition max_of (x : string) (xs : list string) : string :=
  fold_left (fun cur it => if String.ltb cur it then it else cur) xs x.

(** [s[i:j]] for integer bounds: a negative bound counts from the end, and
    both bounds are clamped to the string. *)
Definition slice_bound (len i : Z) : Z :=
  if i <? 0 then Z.max 0 (i + len) else Z.min i len.

Definition slice (s : string) (i j : Z) : string :=
  let len := Z.of_nat (String.length s) in
  let lo := slice_bound len i in
  let hi := slice_bound len j in
  String.substring (Z.to_nat lo) (Z.to_nat (hi - lo)) s.

(** [s.replace(old, new)]: every occurrence of [old], found from the left
    and without overlap, becomes [new].  [skip] counts the characters of an
    occurrence that was just replaced and are still to be passed over. *)
Fixpoint replace_from (old new : string) (skip : nat) (s : string) : string :=
  match s with
  | EmptyString => EmptyString
  | String c s' =>
      match skip with
      | S k => replace_from old new k s'
      | O =>
          if String.prefix old s
          then new +:+ replace_from old new (String.length old - 1) s'
          else String c (replace_from old new 0 s')
      end
  end.

(** With an empty [old], Python puts [new] before every character and at
    the end. *)
Fixpoint intersperse (new s : string) : string :=
  match s with
  | EmptyString => new
  | String c s' => new +:+ String c (intersperse new s')
  end.

Definition replace (s old new : string) : string :=
  if bool_decide (old = "") then intersperse new s
  else replace_from old new 0 s.

(** [s[:n]], [s[n:]] and [s.find(sub)] for natural numbers; [None] stands
    for the [-1] of [find]. *)
Definition take (n : nat) (s : string) : string := String.substring 0 n s.

Fixpoint drop (n : nat) (s : string) : string :=
  match n, s with
  | O, _ => s
  | S n', String _ s' => drop n' s'
  | S _, EmptyString => EmptyString
  end.

Fixpoint find (sub s : string) : option nat :=
  if String.prefix sub s then Some O
  else match s with
       | EmptyString => None
       | String _ s' => S <$> find sub s'
       end.

(** [s.capitalize()] on ASCII letters. *)
Definition upper_char (c : ascii) : ascii :=
  let n := N_of_ascii c in
  if ((97 <=? n) && (n <=? 122))%N then ascii_of_N (n - 32) else c.

Definition lower_char (c : ascii) : ascii :=
  let n := N_of_ascii c in
  if ((65 <=? n) && (n <=? 90))%N then ascii_of_N (n + 32) else c.

Fixpoint lower (s : string) : string :=
  match s with
  | EmptyString => EmptyString
  | String c s' => String (lower_char c) (lower s')
  end.

Definition capitalize (s : string) : string :=
  match s with
  | EmptyString => EmptyString
  | String c s' => String (upper_char c) (lower s')
  end.

(** [str(n)] for an integer. *)
Definition of_Z (n : Z) : string := NilZero.string_of_int (Z.to_int n).

(** [int(s)]: surrounding white space is dropped (the blanks of ASCII, and
    the spaces beyond ASCII, which [int] takes for blanks), a sign may come
    first, and the digits may be grouped by single underscores.  [None]
    stands for the [ValueError] that [int] raises. *)
Definition is_space (c : ascii) : bool :=
  let n := N_of_ascii c in
  ((9 <=? n) && (n <=? 13) || (n =? 32) || (n =? 133) || (n =? 160))%N.

Fixpoint lstrip (s : string) : string :=
  match s with
  | String c s' => if is_space c then lstrip s' else s
  | EmptyString => EmptyString
  end.

Definition strip (s : string) : string :=
  String.rev (lstrip (String.rev (lstrip s))).

Definition digit_of (c : ascii) : option Z :=
  let n := N_of_ascii c in
  if ((48 <=? n) && (n <=? 57))%N then Some (Z.of_N (n - 48)) else None.

Fixpoint digits_value (acc : Z) (after_digit : bool) (s : string) : option Z :=
  match s with
  | EmptyString => if after_digit then Some acc else None
  | String c s' =>
      match digit_of c with
      | Some v => digits_value (10 * acc + v) true s'
      | None =>
          if bool_decide (c = "_"%char) && after_digit
          then digits_value acc false s'
          else None
      end
  end.

Definition to_Z (s : string) : option Z :=
  match strip s with
  | String "+" ds => digits_value 0 false ds
  | String "-" ds => Z.opp <$> digits_value 0 false ds
  | ds => digits_value 0 false ds
  end.

(** [repr(s)] for a string: quoted, with the quote character that needs no
    escaping when there is one, and with control characters escaped. *)
Definition hex_digit (n : N) : ascii :=
  if (n <? 10)%N then ascii_of_N (48 + n) else ascii_of_N (87 + n).

Definition printable (c : ascii) : bool :=
  let n := N_of_ascii c in
  ((32 <=? n) && (n <=? 126) || (161 <=? n) && negb (n =? 173))%N.

Definition repr_char (quote c : ascii) : string :=
  if bool_decide (c = quote) || bool_decide (c = "\"%char)
  then String "\" (String c EmptyString)
  else if bool_decide (c = "009"%char) then "\t"
  else if bool_decide (c = "010"%char) then "\n"
  else if bool_decide (c = "013"%char) then "\r"
  else if printable c then String c EmptyString
  else let n := N_of_ascii c in
       String "\" (String "x" (String (hex_digit (n / 16))
                                 (String (hex_digit (n mod 16)) EmptyString))).

Fixpoint repr_body (quote : ascii) (s : string) : string :=
  match s with
  | EmptyString => EmptyString
  | String c s' => repr_char quote c +:+ repr_body quote s'
  end.

Definition double_quote : ascii := "034"%char.

Definition repr (s : string) : string :=
  let quote :=
    if contains "'" s && negb (contains (String double_quote EmptyString) s)
    then double_quote else "'"%char in
  String quote (repr_body quote s) +:+ String quote EmptyString.

(** What a text file opened for reading hands over: every line ending
    ([\r\n] or [\r]) is read as [\n]. *)
Definition LF : ascii := "010"%char.
Definition CR : ascii := "013"%char.
Definition nl : string := String LF EmptyString.

Fixpoint universal_newlines (s : string) : string :=
  match s with
  | EmptyString => EmptyString
  | String c s' =>
      if bool_decide (c = CR) then
        match s' with
        | String c2 s'' =>
            if bool_decide (c2 = LF) then String LF (universal_newlines s'')
            else String LF (universal_newlines s')
        | EmptyString => nl
        end
      else String c (universal_newlines s')
  end.

(** [f.readlines()] on text already read: the lines, each with its
    terminator. *)
Fixpoint lines_of (s : string) : list string :=
  match s with
  | EmptyString => []
  | String c s' =>
      if bool_decide (c = LF) then nl :: lines_of s'
      else match lines_of s' with
           | [] => [String c EmptyString]
           | l :: ls => String c l :: ls
           end
  end.

(** What [f.writelines(lines)] writes. *)
Definition concat_lines (lines : list string) : string := String.concat "" lines.

End PyStr.

(** ** [posixpath]: the platform path functions that [safe_join] calls *)

Module posixpath.

Definition sep : ascii := "/"%char.
Definition sep_s : string := "/".

(** [os.path.join(a, *p)] *)
Definition join_step (path b : string) : string :=
  if PyStr.startswith b sep_s then b
  else if bool_decide (path = "") || PyStr.endswith path sep_s then path +:+ b
  else path +:+ sep_s +:+ b.

Definition join (a : string) (p : list string) : string :=
  fold_left join_step p a.

(** The loop of [os.path.normpath] over the components; [new_comps] is
    kept reversed, so that its last element is the head. *)
Definition normpath_step (initial_slashes : nat) (new_comps : list string)
    (comp : string) : list string :=
  if bool_decide (comp = "") || bool_decide (comp = ".") then new_comps
  else if negb (bool_decide (comp = ".."))
          || (bool_decide (initial_slashes = 0%nat)
              && bool_decide (new_comps = []))
          || match new_comps with
             | last :: _ => bool_decide (last = "..")
             | [] => false
             end
       then comp :: new_comps
       else match new_comps with
            | _ :: rest => rest
            | [] => []
            end.

(** [os.path.normpath(path)] *)
Definition normpath (path : string) : string :=
  if bool_decide (path = "") then "."
  else
    let initial_slashes :=
      if PyStr.startswith path sep_s then
        if PyStr.startswith path "//" && negb (PyStr.startswith path "///")
        then 2%nat else 1%nat
      else 0%nat in
    let comps := PyStr.split sep path in
    let new_comps := rev (fold_left (normpath_step initial_slashes) comps []) in
    let path' := PyStr.join sep_s new_comps in
    let path'' := PyStr.repeat sep initial_slashes +:+ path' in
    if bool_decide (path'' = "") then "." else path''.

(** The loop of [os.path.commonprefix]:
    [for i, c in enumerate(s1): if c != s2[i]: return s1[:i]], then
    [return s1].  [s2[i]] raises [IndexError] past the end of [s2]. *)
Fixpoint commonprefix_loop (s1 s2 : string) : outcome string :=
  match s1 with
  | EmptyString => Return EmptyString
  | String c s1' =>
      match s2 with
      | EmptyString => Raise (IndexError "string index out of range")
      | String c2 s2' =>
          if bool_decide (c = c2)
          then outcome_bind (commonprefix_loop s1' s2')
                 (fun r => Return (String c r))
          else Return EmptyString
      end
  end.

(** [os.path.commonprefix(m)] *)
Definition commonprefix (m : list string) : outcome string :=
  match m with
  | [] => Return EmptyString
  | x :: xs => commonprefix_loop (PyStr.min_of x xs) (PyStr.max_of x xs)
  end.

(** [os.path.dirname(p)]: everything up to the last separator, without
    trailing separators unless it consists of separators only. *)
Fixpoint rstrip_sep_rev (r : string) : string :=
  match r with
  | String c r' => if bool_decide (c = sep) then rstrip_sep_rev r' else r
  | EmptyString => EmptyString
  end.

Fixpoint head_upto_last_sep (p : string) : string :=
  match p with
  | EmptyString => EmptyString
  | String c p' =>
      if PyStr.contains sep_s p then String c (head_upto_last_sep p')
      else EmptyString
  end.

Definition dirname (p : string) : string :=
  let head := head_upto_last_sep p in
  if negb (bool_decide (head = ""))
     && negb (bool_decide (head = PyStr.repeat sep (String.length head)))
  then String.rev (rstrip_sep_rev (String.rev head))
  else head.

(** [os.path.basename(p)]: what follows the last separator. *)
Fixpoint basename (p : string) : string :=
  match p with
  | EmptyString => EmptyString
  | String c p' => if PyStr.contains sep_s p then basename p' else p
  end.

(** [os.path.split(p)] *)
Definition split (p : string) : string * string := (dirname p, basename p).

End posixpath.

(** ** PathGuard: [safe_join] *)

Definition escape_msg : string :=
  "Attempted to access outside of working directory.".

Definition safe_join (base : string) (paths : list string) : outcome string :=
  let new_path := posixpath.join base paths in
  let norm_new_path := posixpath.normpath new_path in
  outcome_bind (posixpath.commonprefix [base; norm_new_path]) (fun cp =>
    if negb (bool_decide (cp = base)) then Raise (ValueError escape_msg)
    else Return norm_new_path).


(** ** The file system and the effects of the module *)

(** A path names a regular file with its content, a directory, or nothing.
    Paths are compared as strings: the module hands only normalized paths
    below its working directory to the operating system, and these are
    absolute, as [os.getcwd()] is. *)
Inductive node : Type :=
| File (content : string)
| Dir.

(** The mutations of the file system, in the order they happen. *)
Inductive event : Type :=
| EvWrite (path content : string)
| EvAppend (path text : string)
| EvMkdir (path : string).

Record state : Type := mkState {
  nodes : gmap string node;
  history : list event
}.

(** A computation reads and changes the state and returns or raises. *)
Definition M (A : Type) : Type := state -> outcome A * state.

Definition ret {A} (a : A) : M A := fun st => (Return a, st).
Definition raise {A} (e : exn) : M A := fun st => (Raise e, st).
Definition bind {A B} (c : M A) (k : A -> M B) : M B :=
  fun st =>
    match c st with
    | (Return a, st') => k a st'
    | (Raise e, st') => (Raise e, st')
    end.
Definition lift {A} (o : outcome A) : M A := fun st => (o, st).

(** [try: body except Exception as e: handler(e)] *)
Definition try_except {A} (body : M A) (handler : exn -> M A) : M A :=
  fun st =>
    match body st with
    | (Return a, st') => (Return a, st')
    | (Raise e, st') => handler e st'
    end.

Declare Scope py_scope.
Delimit Scope py_scope with py.
Notation "'let*' x ':=' c 'in' k" := (bind c (fun x => k))
  (at level 10, x name, c at level 100, k at level 200) : py_scope.
Notation "c ';;' k" := (bind c (fun _ => k))
  (at level 100, k at level 200, right associativity) : py_scope.
Local Open Scope py_scope.

(** [str(e)] *)
Definition os_error (errno : Z) (strerror path : string) : string :=
  "[Errno " +:+ PyStr.of_Z errno +:+ "] " +:+ strerror +:+ ": " +:+ PyStr.repr path.

Definition str_exn (e : exn) : string :=
  match e with
  | ValueError msg => msg
  | IndexError msg => msg
  | TypeError msg => msg
  | NameError name => "name '" +:+ name +:+ "' is not defined"
  | RecursionError => "maximum recursion depth exceeded"
  | FileNotFoundError path => os_error 2 "No such file or directory" path
  | IsADirectoryError path => os_error 21 "Is a directory" path
  | NotADirectoryError path => os_error 20 "Not a directory" path
  | FileExistsError path => os_error 17 "File exists" path
  end.

(** *** Operating system calls *)

Definition os_path_exists (p : string) : M bool :=
  fun st => (Return (bool_decide (is_Some (nodes st !! p))), st).

Definition os_path_isfile (p : string) : M bool :=
  fun st => (Return (match nodes st !! p with Some (File _) => true | _ => false end), st).

(** What the nearest ancestor of [p] that exists is: the directory of [p],
    or the directory of that one when it is missing, and so on, for as many
    steps as [p] has characters. *)
Fixpoint nearest_ancestor (fuel : nat) (st : state) (p : string) : option node :=
  match fuel with
  | O => None
  | S fuel' =>
      let dir := posixpath.dirname p in
      match nodes st !! dir with
      | Some n => Some n
      | None =>
          if bool_decide (dir = p) then None
          else nearest_ancestor fuel' st dir
      end
  end.

(** The error for a path that names nothing: below a regular file the
    path cannot be followed, [ENOTDIR]; otherwise it does not exist,
    [ENOENT]. *)
Definition missing_error (st : state) (p : string) : exn :=
  match nearest_ancestor (String.length p) st p with
  | Some (File _) => NotADirectoryError p
  | _ => FileNotFoundError p
  end.

(** [with open(p, "r") as f: f.read()] *)
Definition open_read (p : string) : M string :=
  fun st =>
    match nodes st !! p with
    | Some (File content) => (Return (PyStr.universal_newlines content), st)
    | Some Dir => (Raise (IsADirectoryError p), st)
    | None => (Raise (missing_error st p), st)
    end.

(** Opening [p] for writing or appending needs its directory, and [p] must
    not be a directory itself. *)
Definition open_for_output (p : string) : M unit :=
  fun st =>
    match nodes st !! p with
    | Some Dir => (Raise (IsADirectoryError p), st)
    | _ =>
        match nodes st !! posixpath.dirname p with
        | Some Dir => (Return tt, st)
        | Some (File _) => (Raise (NotADirectoryError p), st)
        | None => (Raise (FileNotFoundError p), st)
        end
    end.

Definition put_file (p content : string) (ev : event) : M unit :=
  fun st => (Return tt, {| nodes := <[p := File content]> (nodes st);
                           history := history st ++ [ev] |}).

Definition content_of (st : state) (p : string) : string :=
  match nodes st !! p with
  | Some (File content) => content
  | _ => EmptyString
  end.

(** [with open(p, "w") as f: f.write(data)] *)
Definition open_write (p data : string) : M unit :=
  open_for_output p ;; put_file p data (EvWrite p data).

(** [with open(p, "a") as f: f.write(text)] *)
Definition open_append (p text : string) : M unit :=
  open_for_output p ;;
  fun st => put_file p (content_of st p +:+ text) (EvAppend p text) st.

(** [os.mkdir(p)] *)
Definition os_mkdir (p : string) : M unit :=
  fun st =>
    match nodes st !! p with
    | Some _ => (Raise (FileExistsError p), st)
    | None =>
        match nodes st !! posixpath.dirname p with
        | Some Dir =>
            (Return tt, {| nodes := <[p := Dir]> (nodes st);
                           history := history st ++ [EvMkdir p] |})
        | Some (File _) => (Raise (NotADirectoryError p), st)
        | None => (Raise (FileNotFoundError p), st)
        end
    end.

(** [os.makedirs(name)]: the missing ancestors first, then [name].  The
    recursion is on the head of the path, which gets shorter; [fuel] bounds
    it by the length of the path. *)
Fixpoint os_makedirs_from (fuel : nat) (name : string) : M unit :=
  match fuel with
  | O => os_mkdir name
  | S fuel' =>
      let '(head, tail) := posixpath.split name in
      let '(head, tail) :=
        if bool_decide (tail = "") then posixpath.split head else (head, tail) in
      let* head_exists := os_path_exists head in
      let* done :=
        if negb (bool_decide (head = "")) && negb (bool_decide (tail = ""))
           && negb head_exists
        then
          try_except (os_makedirs_from fuel' head)
            (fun e => match e with
                      | FileExistsError _ => ret tt
                      | _ => raise e
                      end) ;;
          ret (bool_decide (tail = "."))
        else ret false in
      if done then ret tt else os_mkdir name
  end.

Definition os_makedirs (name : string) : M unit :=
  os_makedirs_from (String.length name) name.

(** *** The interpreter's call stack *)

(** Every function of the module takes the number [d] of frames that the
    interpreter can still push: a call with none left raises
    [RecursionError] in the caller, and the body runs with one frame less.
    This is what ends the mutual recursion of [log_operation] and
    [append_to_file]. *)
Definition call {A} (d : nat) (o : outcome A) : M A :=
  match d with
  | O => raise RecursionError
  | S _ => lift o
  end.

(** ** The module *)

Section FileOperations.

(** The directory the process was started in, [os.getcwd()]. *)
Variable cwd : string.

(** [Path(p) / name] for a normalized [p]. *)
Definition path_div (p name : string) : string :=
  if PyStr.endswith p "/" then p +:+ name else p +:+ "/" +:+ name.

Definition WORKING_DIRECTORY : string := path_div cwd "auto_gpt_workspace".
Definition LOG_FILE : string := "file_logger.txt".
Definition LOG_FILE_PATH : string := path_div WORKING_DIRECTORY LOG_FILE.

(** What importing the module does: create the working directory if it
    doesn't exist. *)
Definition module_init : M unit :=
  let* ex := os_path_exists WORKING_DIRECTORY in
  if negb ex then os_makedirs WORKING_DIRECTORY else ret tt.

Definition read_file (d : nat) (filename : string) : M string :=
  match d with
  | O => raise RecursionError
  | S d' =>
      try_except
        (let* filepath := call d' (safe_join WORKING_DIRECTORY [filename]) in
         let* content := open_read filepath in
         ret content)
        (fun e => ret ("Error: " +:+ str_exn e))
  end.

Definition log_entry_of (operation filename : string) : string :=
  operation +:+ ": " +:+ filename +:+ PyStr.nl.

Definition check_duplicate_operation (d : nat) (operation filename : string) : M bool :=
  match d with
  | O => raise RecursionError
  | S d' =>
      let* log_content := read_file d' LOG_FILE in
      let log_entry := log_entry_of operation filename in
      ret (PyStr.contains log_entry log_content)
  end.

Definition log_header : string := "File Operation Logger ".

Fixpoint log_operation (d : nat) (operation filename : string) {struct d} : M unit :=
  match d with
  | O => raise RecursionError
  | S d' =>
      let log_entry := log_entry_of operation filename in
      let* ex := os_path_exists LOG_FILE_PATH in
      (if negb ex then open_write LOG_FILE_PATH log_header else ret tt) ;;
      append_to_file d' LOG_FILE log_entry ;;
      ret tt
  end
with append_to_file (d : nat) (filename text : string) {struct d} : M string :=
  match d with
  | O => raise RecursionError
  | S d' =>
      try_except
        (let* filepath := call d' (safe_join WORKING_DIRECTORY [filename]) in
         open_append filepath text ;;
         log_operation d' "append" filename ;;
         ret "Text appended successfully.")
        (fun e => ret ("Error: " +:+ str_exn e))
  end.

Definition write_to_file (d : nat) (filename text : string) : M string :=
  match d with
  | O => raise RecursionError
  | S d' =>
      let* dup := check_duplicate_operation d' "write" filename in
      if dup then ret "Error: File has already been updated."
      else
        try_except
          (let* filepath := call d' (safe_join WORKING_DIRECTORY [filename]) in
           let directory := posixpath.dirname filepath in
           let* ex := os_path_exists directory in
           (if negb ex then os_makedirs directory else ret tt) ;;
           open_write filepath text ;;
           log_operation d' "write" filename ;;
           ret "File written to successfully.")
          (fun e => ret ("Error: " +:+ str_exn e))
  end.

End FileOperations.

(** ** Chunker: the generator [split_file] *)

Module Chunker.

(** The state of the generator between two [yield]s is the local [start];
    one step runs the loop body once: [Some (chunk, start')] yields
    [chunk], [None] is the end of the loop. *)
Definition next (content : string) (max_length overlap : Z) (start : Z)
    : option (string * Z) :=
  let content_length := Z.of_nat (String.length content) in
  if start <? content_length then
    let end_ := start + max_length in
    let chunk :=
      if end_ + overlap <? content_length
      then PyStr.slice content start (end_ + overlap)
      else PyStr.slice content start content_length in
    Some (chunk, start + (max_length - overlap))
  else None.

(** The chunks that the first [n] requests get from the generator. *)
Fixpoint take_from (n : nat) (content : string) (max_length overlap start : Z)
    : list string :=
  match n with
  | O => []
  | S n' =>
      match next content max_length overlap start with
      | Some (chunk, start') =>
          chunk :: take_from n' content max_length overlap start'
      | None => []
      end
  end.

(** [list(split_file(content, max_length, overlap))], with [fuel] loop
    iterations at most: [None] when the generator has not ended by then. *)
Fixpoint run_from (fuel : nat) (content : string) (max_length overlap start : Z)
    : option (list string) :=
  match fuel with
  | O => None
  | S fuel' =>
      match next content max_length overlap start with
      | Some (chunk, start') =>
          cons chunk <$> run_from fuel' content max_length overlap start'
      | None => Some []
      end
  end.

Definition split_file (fuel : nat) (content : string) (max_length overlap : Z)
    : option (list string) :=
  run_from fuel content max_length overlap 0.

(** The local [start] after [n] iterations. *)
Definition start_after (max_length overlap : Z) (n : nat) : Z :=
  Z.of_nat n * (max_length - overlap).

End Chunker.

(** ** LineEditor: [edit_line] *)

Module LineEditor.

(** The argument [line_numbers]: the code goes on only with a [str]. *)
Inductive line_spec : Type :=
| LineStr (s : string)
| LineInt (n : Z)
| LineList (l : list Z).

Definition actions : list string := ["add"; "insert"; "modify"; "replace"; "delete"].

(** [f"{actions}"] *)
Definition repr_list (l : list string) : string :=
  "[" +:+ PyStr.join ", " (PyStr.repr <$> l) +:+ "]".

Definition mem (x : string) (l : list string) : bool := bool_decide (x ∈ l).

(** [list(map(int, line_numbers.split(",")))] or [[int(line_numbers)]];
    [None] is the [ValueError] of [int]. *)
Definition parse_line_numbers (line_numbers : string) : option (list Z) :=
  if PyStr.contains "," line_numbers
  then mapM PyStr.to_Z (PyStr.split ","%char line_numbers)
  else (fun n => [n]) <$> PyStr.to_Z line_numbers.

(** [lines.insert(i, x)] for [i] within the list. *)
Definition list_insert_at {A} (i : nat) (x : A) (l : list A) : list A :=
  take i l ++ x :: drop i l.

Definition none_operand : exn :=
  TypeError "unsupported operand type(s) for +: 'NoneType' and 'str'".
Definition none_in_string : exn :=
  TypeError "'in <string>' requires string as left operand, not NoneType".
Definition index_out_of_range : exn := IndexError "list index out of range".

(** The loop over [line_numbers] (lines 286 to 297): [Return (inl msg)] when
    the function returns [msg] from inside the loop, [Return (inr lines)]
    when the loop ends. *)
Fixpoint apply_edits (action : string) (old_text new_text : option string)
    (line_numbers : list Z) (lines : list string)
    : outcome (string + list string) :=
  match line_numbers with
  | [] => Return (inr lines)
  | line_number :: rest =>
      if (line_number <? 1) || (line_number >? Z.of_nat (length lines))
      then Return (inl ("Error: Line number " +:+ PyStr.of_Z line_number
                        +:+ " is out of range."))
      else
        let i := Z.to_nat (line_number - 1) in
        if mem action ["add"; "insert"] then
          match new_text with
          | None => Raise none_operand
          | Some new =>
              apply_edits action old_text new_text rest
                (list_insert_at i (new +:+ PyStr.nl) lines)
          end
        else if mem action ["replace"; "modify"] then
          match lines !! i, old_text with
          | None, _ => Raise index_out_of_range
          | _, None => Raise none_in_string
          | Some line, Some old =>
              if negb (PyStr.contains old line)
              then Return (inl ("Error: old_text '" +:+ old
                                +:+ "' not found on line "
                                +:+ PyStr.of_Z line_number
                                +:+ " '" +:+ line +:+ "'."))
              else
                match new_text with
                | None => Raise (TypeError "replace() argument 2 must be str, not None")
                | Some new =>
                    apply_edits action old_text new_text rest
                      (<[i := PyStr.replace line old new]> lines)
                end
          end
        else if bool_decide (action = "delete") then
          apply_edits action old_text new_text rest (delete i lines)
        else apply_edits action old_text new_text rest lines
  end.

(** From the words of the specification: "replaces the first occurrence of
    [oldText] with [newText] within that line". *)
Definition replace_first_occurrence (line old new : string) : string :=
  match PyStr.find old line with
  | None => line
  | Some i =>
      PyStr.take i line +:+ new +:+ PyStr.drop (i + String.length old) line
  end.

(** What the stages before the first write hand over to the rest: the
    resolved path, the lines as they were read and the lines after the
    loop. *)
Record staged : Type := mkStaged {
  staged_path : string;
  original_lines : list string;
  final_lines : list string
}.

Section Editor.

Variable cwd : string.

(** Lines 255 to 297: validation, loading and the loop.  [inl msg] is an
    early [return msg]. *)
Definition edit_line_stage (d : nat) (filename : string) (line_numbers : line_spec)
    (action : string) (old_text new_text : option string) : M (string + staged) :=
  let* filepath := call d (safe_join (WORKING_DIRECTORY cwd) [filename]) in
  let* isfile := os_path_isfile filepath in
  if negb isfile
  then ret (inl ("Error: File '" +:+ filepath +:+ "' does not exist."))
  else
    match line_numbers with
    | LineInt _ | LineList _ => ret (inl "Error: Invalid line number(s) provided.")
    | LineStr line_numbers =>
        if negb (mem action actions)
        then ret (inl ("Error: Invalid action. Must be one of "
                       +:+ repr_list actions +:+ "."))
        else if mem action ["add"; "replace"; "insert"; "modify"]
                && bool_decide (new_text = None)
        then ret (inl "Error: new_text must be provided for 'add', 'insert' and 'modify' actions.")
        else if mem action ["replace"; "modify"] && bool_decide (old_text = None)
        then ret (inl "Error: old_text must be provided for 'modify' action.")
        else
          match parse_line_numbers line_numbers with
          | None => ret (inl "Error: Invalid line number(s) format. Must be an int or a list of ints.")
          | Some line_numbers =>
              let* text := open_read filepath in
              let lines := PyStr.lines_of text in
              let original_lines := lines in
              let* r := lift (apply_edits action old_text new_text line_numbers lines) in
              match r with
              | inl msg => ret (inl msg)
              | inr lines => ret (inr (mkStaged filepath original_lines lines))
              end
          end
    end.

Definition summary (filename action : string) (original_lines lines : list string)
    : string :=
  "File: " +:+ filename +:+ ", Action: " +:+ PyStr.capitalize action
  +:+ ", Result: "
  +:+ (if negb (bool_decide (original_lines = lines)) then "Success."
       else "No changes made").

(** Lines 299 to 312: backup, commit and report.  The module never imports
    [difflib], so that looking the name up raises [NameError]. *)
Definition edit_line_commit (filename action : string) (debug : bool) (s : staged)
    : M string :=
  let filepath := staged_path s in
  open_write (filepath +:+ ".bak") (PyStr.concat_lines (original_lines s)) ;;
  open_write filepath (PyStr.concat_lines (final_lines s)) ;;
  (if debug then
     let* text := open_read filepath in
     let new_lines := PyStr.lines_of text in
     raise (NameError "difflib")
   else ret tt) ;;
  ret (summary filename action (original_lines s) (final_lines s)).

Definition edit_line (d : nat) (filename : string) (line_numbers : line_spec)
    (action : string) (old_text new_text : option string) (debug : bool) : M string :=
  match d with
  | O => raise RecursionError
  | S d' =>
      let* r := edit_line_stage d' filename line_numbers action old_text new_text in
      match r with
      | inl msg => ret msg
      | inr s => edit_line_commit filename action debug s
      end
  end.

End Editor.

End LineEditor.

(** ** Notions used to state the properties *)

(** A computation that leaves the state as it found it. *)
Definition reads_only {A} (c : M A) : Prop := forall st, snd (c st) = st.

(** No carriage return in [s]. *)
Definition no_cr (s : string) : Prop :=
  PyStr.contains (String PyStr.CR "") s = false.

(** The state after [text] was appended to the file at [p]. *)
Definition append_file (p text : string) (st : state) : state :=
  {| nodes := <[p := File (content_of st p +:+ text)]> (nodes st);
     history := history st ++ [EvAppend p text] |}.

Definition append_all (p : string) (texts : list string) (st : state) : state :=
  fold_left (fun st text => append_file p text st) texts st.

(** The entry that [append_to_file] logs for an append to the log file. *)
Definition log_line : string := log_entry_of "append" LOG_FILE.

(** The texts that [append_to_file d LOG_FILE text] appends to the log file
    before the interpreter runs out of frames: [text], and then one
    [log_line] for every second frame that is left. *)
Fixpoint log_chain (d : nat) (text : string) : list string :=
  match d with
  | S (S d') => text :: log_chain d' log_line
  | _ => []
  end.

(** The file at [p] can be created, overwritten or appended to: its
    directory exists and no directory stands in its place. *)
Definition can_write (st : state) (p : string) : Prop :=
  nodes st !! p <> Some Dir
  /\ nodes st !! posixpath.dirname p = Some Dir.

Section LogNotions.

Variable cwd : string.

Definition log_ready (st : state) : Prop := can_write st (LOG_FILE_PATH cwd).

(** The state after [log_operation] has made sure that the log file
    exists. *)
Definition with_log (st : state) : state :=
  match nodes st !! LOG_FILE_PATH cwd with
  | Some _ => st
  | None =>
      {| nodes := <[LOG_FILE_PATH cwd := File log_header]> (nodes st);
         history := history st ++ [EvWrite (LOG_FILE_PATH cwd) log_header] |}
  end.

(** What [read_file] returns for the log file. *)
Definition log_text (st : state) : string :=
  match nodes st !! LOG_FILE_PATH cwd with
  | Some (File content) => PyStr.universal_newlines content
  | Some Dir => "Error: " +:+ str_exn (IsADirectoryError (LOG_FILE_PATH cwd))
  | None => "Error: " +:+ str_exn (missing_error st (LOG_FILE_PATH cwd))
  end.

(** [check_duplicate_operation] finds the entry of [operation] on
    [filename] in what it reads from the log file. *)
Definition recorded (st : state) (operation filename : string) : Prop :=
  exists content,
    nodes st !! LOG_FILE_PATH cwd = Some (File content)
    /\ PyStr.contains (log_entry_of operation filename)
         (PyStr.universal_newlines content) = true.

End LogNotions.

(** ** A concrete machine, for instances of the theorems *)

Module Example.

Definition cwd : string := "/home/agent".

(** The directories that exist before the module is imported. *)
Definition boot : state :=
  {| nodes := <["/home/agent" := Dir]> (<["/home" := Dir]> (<["/" := Dir]> ∅));
     history := [] |}.

(** The state after the import: the working directory exists. *)
Definition fresh : state := snd (module_init cwd boot).

Definition ws (name : string) : string := WORKING_DIRECTORY cwd +:+ "/" +:+ name.

(** The working directory with a file [b.txt] of three lines. *)
Definition three_lines : string :=
  "aXbXc" +:+ PyStr.nl +:+ "b" +:+ PyStr.nl +:+ "c" +:+ PyStr.nl.

Definition with_file : state :=
  {| nodes := <[ws "b.txt" := File three_lines]> (nodes fresh);
     history := history fresh |}.

Definition lines_before : list string :=
  ["aXbXc" +:+ PyStr.nl; "b" +:+ PyStr.nl; "c" +:+ PyStr.nl].

(** What the stages of [edit_line] hand over for an insert of "X" at
    line 2, and for a change of "X" to "Y" on line 1. *)
Definition staged_insert : LineEditor.staged :=
  LineEditor.mkStaged (ws "b.txt") lines_before
    ["aXbXc" +:+ PyStr.nl; "X" +:+ PyStr.nl; "b" +:+ PyStr.nl; "c" +:+ PyStr.nl].

Definition staged_modify : LineEditor.staged :=
  LineEditor.mkStaged (ws "b.txt") lines_before
    ["aYbYc" +:+ PyStr.nl; "b" +:+ PyStr.nl; "c" +:+ PyStr.nl].

End Example.

(** ** The rest of the module: [delete_file] and [ingest_file] *)

(** [os.remove(p)].  The history keeps what is written; a removal leaves
    it as it is. *)
Definition os_remove (p : string) : M unit :=
  fun st =>
    match nodes st !! p with
    | Some (File _) =>
        (Return tt, {| nodes := delete p (nodes st); history := history st |})
    | Some Dir => (Raise (IsADirectoryError p), st)
    | None => (Raise (missing_error st p), st)
    end.

(** What [ingest_file] works on besides the file system: the memory
    object, of which only [add] is used, and the standard output, by
    lines. *)
Record world : Type := mkWorld {
  world_fs : state;
  world_memory : list string;
  world_stdout : list string
}.

Definition print (line : string) (w : world) : world :=
  {| world_fs := world_fs w;
     world_memory := world_memory w;
     world_stdout := world_stdout w ++ [line] |}.

Definition memory_add (text : string) (w : world) : world :=
  {| world_fs := world_fs w;
     world_memory := world_memory w ++ [text];
     world_stdout := world_stdout w |}.

Definition with_fs (st : state) (w : world) : world :=
  {| world_fs := st;
     world_memory := world_memory w;
     world_stdout := world_stdout w |}.

Section RestOfModule.

Variable cwd : string.

Definition delete_file (d : nat) (filename : string) : M string :=
  match d with
  | O => raise RecursionError
  | S d' =>
      let* dup := check_duplicate_operation cwd d' "delete" filename in
      if dup then ret "Error: File has already been deleted."
      else
        try_except
          (let* filepath := call d' (safe_join (WORKING_DIRECTORY cwd) [filename]) in
           os_remove filepath ;;
           log_operation cwd d' "delete" filename ;;
           ret "File deleted successfully.")
          (fun e => ret ("Error: " +:+ str_exn e))
  end.

(** The text that is added to the memory for chunk [i] (from 0) of
    [num_chunks]. *)
Definition memory_to_add (filename : string) (i num_chunks : nat) (chunk : string)
    : string :=
  "Filename: " +:+ filename +:+ PyStr.nl
  +:+ "Content part#" +:+ PyStr.of_Z (Z.of_nat i + 1) +:+ "/"
  +:+ PyStr.of_Z (Z.of_nat num_chunks) +:+ ": " +:+ chunk.

(** The loop [for i, chunk in enumerate(chunks)], from index [i] on. *)
Fixpoint ingest_loop (filename : string) (num_chunks i : nat) (chunks : list string)
    (w : world) : world :=
  match chunks with
  | [] => w
  | chunk :: rest =>
      let w := print ("Ingesting chunk " +:+ PyStr.of_Z (Z.of_nat i + 1) +:+ " / "
                      +:+ PyStr.of_Z (Z.of_nat num_chunks) +:+ " into memory") w in
      let w := memory_add (memory_to_add filename i num_chunks chunk) w in
      ingest_loop filename num_chunks (S i) rest w
  end.

(** [ingest_file]; [fuel] bounds the iterations of [list(split_file(...))],
    and [None] says that the list was not complete by then. *)
Definition ingest_file (d fuel : nat) (filename : string) (max_length overlap : Z)
    (w : world) : option (outcome unit * world) :=
  match d with
  | O => Some (Raise RecursionError, w)
  | S d' =>
      let w := print ("Working with file " +:+ filename) w in
      match read_file cwd d' filename (world_fs w) with
      | (Raise e, st) =>
          Some (Return tt,
                print ("Error while ingesting file '" +:+ filename +:+ "': "
                       +:+ str_exn e) (with_fs st w))
      | (Return content, st) =>
          let w := with_fs st w in
          let content_length := Z.of_nat (String.length content) in
          let w := print ("File length: " +:+ PyStr.of_Z content_length
                          +:+ " characters") w in
          match Chunker.split_file fuel content max_length overlap with
          | None => None
          | Some chunks =>
              let num_chunks := length chunks in
              let w := ingest_loop filename num_chunks 0 chunks w in
              Some (Return tt,
                    print ("Done ingesting " +:+ PyStr.of_Z (Z.of_nat num_chunks)
                           +:+ " chunks from " +:+ filename +:+ ".") w)
          end
      end
  end.

End RestOfModule.

(** ** More of the concrete machine *)

Module Example2.

Import Example.

(** A file with line endings of two characters, and an empty file. *)
Definition crlf_text : string :=
  "a" +:+ String PyStr.CR PyStr.nl +:+ "b" +:+ String PyStr.CR PyStr.nl.

Definition lf_text : string := "a" +:+ PyStr.nl +:+ "b" +:+ PyStr.nl.

Definition with_crlf_file : state :=
  {| nodes := <[ws "c.txt" := File crlf_text]> (nodes fresh);
     history := history fresh |}.

Definition with_empty_file : state :=
  {| nodes := <[ws "e.txt" := File ""]> (nodes fresh);
     history := history fresh |}.

(** What the stages of [edit_line] hand over for a change of "a" to "a" on
    line 1 of [c.txt]. *)
Definition staged_same : LineEditor.staged :=
  LineEditor.mkStaged (ws "c.txt")
    ["a" +:+ PyStr.nl; "b" +:+ PyStr.nl] ["a" +:+ PyStr.nl; "b" +:+ PyStr.nl].

Definition world_of (st : state) : world :=
  {| world_fs := st; world_memory := []; world_stdout := [] |}.

Definition missing_message : string :=
  "Error: " +:+ str_exn (FileNotFoundError (ws "nope.txt")).

(** What [read_file] returns for a path below the regular file [b.txt]. *)
Definition below_file_message : string :=
  "Error: " +:+ str_exn (NotADirectoryError (ws "b.txt/x")).

(** A file name with a carriage return in it, ['a\rb'], and the fresh
    machine after [write_to_file('a\rb', 'x')]. *)
Definition cr_name : string := "a" +:+ String PyStr.CR "b".

Definition after_cr_write : state := snd (write_to_file cwd 8 cr_name "x" fresh).

End Example2.

(** No line feed in [s]. *)
Definition no_lf (s : string) : Prop := PyStr.contains PyStr.nl s = false.
(** ** Properties of the path guard *)

Section PathGuard.

Lemma ascii_compare_refl (c : ascii) : Ascii.compare c c = Eq.
Proof. unfold Ascii.compare. apply N.compare_refl. Qed.

Lemma string_compare_refl (s : string) : String.compare s s = Eq.
Proof. induction s as [|c s IH]; simpl; [done|]. by rewrite ascii_compare_refl. Qed.

Lemma prefix_refl (s : string) : String.prefix s s = true.
Proof. induction s as [|c s IH]; simpl; [done|]. by destruct (ascii_dec c c). Qed.

(** A literal prefix is never larger than the string it starts. *)
Lemma prefix_not_gt (s1 s2 : string) :
  String.prefix s1 s2 = true -> String.compare s1 s2 <> Gt.
Proof.
  revert s2; induction s1 as [|c s1 IH]; intros [|c2 s2]; simpl; try done.
  destruct (ascii_dec c c2) as [->|]; [|done].
  rewrite ascii_compare_refl. auto.
Qed.

(** When [s1] is not above [s2], the loop never indexes past the end of
    [s2]; it returns a prefix of [s1], which is [s1] itself exactly when
    [s1] is a prefix of [s2]. *)
Lemma commonprefix_loop_ordered (s1 s2 : string) :
  String.compare s1 s2 <> Gt ->
  exists r, posixpath.commonprefix_loop s1 s2 = Return r
            /\ String.prefix r s1 = true
            /\ (r = s1 <-> String.prefix s1 s2 = true).
Proof.
  revert s2; induction s1 as [|c s1 IH]; intros [|c2 s2] Hcmp; simpl in *.
  - by exists "".
  - by exists "".
  - done.
  - destruct (ascii_dec c c2) as [->|Hne].
    + rewrite ascii_compare_refl in Hcmp.
      destruct (IH s2 Hcmp) as (r & -> & Hpre & Hiff). simpl.
      rewrite bool_decide_true by done.
      exists (String c2 r). split; [done|]. simpl.
      destruct (ascii_dec c2 c2); [|done]. split; [done|].
      rewrite <- Hiff. split; [by intros [= ->]|by intros ->].
    + rewrite bool_decide_false by done.
      exists "". by repeat split.
Qed.

Lemma commonprefix_pair (base norm : string) :
  exists r, posixpath.commonprefix [base; norm] = Return r
            /\ (r = base <-> String.prefix base norm = true).
Proof.
  unfold posixpath.commonprefix, PyStr.min_of, PyStr.max_of, String.ltb; simpl.
  rewrite (String.compare_antisym norm base).
  destruct (String.compare base norm) eqn:Hcmp; simpl.
  - apply String.compare_eq_iff in Hcmp as ->.
    destruct (commonprefix_loop_ordered norm norm) as (r & Hr & _ & Hiff).
    { by rewrite string_compare_refl. }
    exists r. split; [done|]. rewrite Hiff. done.
  - destruct (commonprefix_loop_ordered base norm) as (r & Hr & _ & Hiff).
    { by rewrite Hcmp. }
    by exists r.
  - destruct (commonprefix_loop_ordered norm base) as (r & Hr & Hpre & _).
    { rewrite String.compare_antisym, Hcmp. done. }
    exists r. split; [done|]. split.
    + intros ->. by apply prefix_not_gt in Hpre.
    + intros Hp. by apply prefix_not_gt in Hp.
Qed.

(** C1: for every base and every sequence of segments, [safe_join] raises
    the path escape error exactly when the joined and normalized path does
    not have [base] as a literal string prefix, and returns that normalized
    path when it has; it is a function of its arguments alone. *)
Theorem safe_join_literal_prefix (base : string) (paths : list string) :
  safe_join base paths =
    let norm := posixpath.normpath (posixpath.join base paths) in
    if String.prefix base norm then Return norm
    else Raise (ValueError escape_msg).
Proof.
  unfold safe_join. cbv zeta.
  destruct (commonprefix_pair base
              (posixpath.normpath (posixpath.join base paths)))
    as (r & -> & Hiff). simpl.
  destruct (String.prefix base _) eqn:Hp.
  - rewrite bool_decide_true by by apply Hiff. done.
  - rewrite bool_decide_false; [done|].
    intros Hr. apply Hiff in Hr. congruence.
Qed.

End PathGuard.

Example safe_join_inside :
  safe_join "/sandbox" ["docs/../a.txt"] = Return "/sandbox/a.txt".
Proof. reflexivity. Qed.

Example safe_join_escape :
  safe_join "/sandbox" ["../etc/passwd"] = Raise (ValueError escape_msg).
Proof. reflexivity. Qed.

Example safe_join_absolute_segment :
  safe_join "/sandbox" ["/etc/passwd"] = Raise (ValueError escape_msg).
Proof. reflexivity. Qed.

(** The literal prefix check accepts a sibling directory that shares the
    prefix. *)
Example safe_join_sibling :
  safe_join "/sandbox" ["../sandbox-evil/x"] = Return "/sandbox-evil/x".
Proof. reflexivity. Qed.

Example dirname_examples :
  posixpath.dirname "/ws/a.txt" = "/ws" /\
  posixpath.dirname "/a.txt" = "/" /\
  posixpath.dirname "a.txt" = "" /\
  posixpath.dirname "/ws//sub///a" = "/ws//sub".
Proof. repeat split; reflexivity. Qed.

(** ** Properties of the chunker *)

Section ChunkerFacts.

Variable content : string.
Variables max_length overlap : Z.

Let content_length : Z := Z.of_nat (String.length content).

Lemma next_inside (start : Z) :
  start < content_length ->
  exists chunk,
    Chunker.next content max_length overlap start
    = Some (chunk, start + (max_length - overlap)).
Proof.
  intros Hlt. unfold Chunker.next. fold content_length.
  destruct (Z.ltb_spec start content_length); [|lia]. eauto.
Qed.

Lemma next_outside (start : Z) :
  content_length <= start ->
  Chunker.next content max_length overlap start = None.
Proof.
  intros Hge. unfold Chunker.next. fold content_length.
  destruct (Z.ltb_spec start content_length); [lia|done].
Qed.

(** With a step that does not advance, a generator that has something to
    yield never stops yielding. *)
Lemma take_from_stuck (n : nat) (start : Z) :
  max_length <= overlap -> start <= 0 -> 0 < content_length ->
  length (Chunker.take_from n content max_length overlap start) = n.
Proof.
  intros Hstep. revert start. induction n as [|n IH]; intros start Hs Hlen; [done|].
  simpl. destruct (next_inside start) as [chunk ->]; [lia|].
  simpl. rewrite IH; [done|lia|done].
Qed.

Lemma run_from_stuck (fuel : nat) (start : Z) :
  max_length <= overlap -> start <= 0 -> 0 < content_length ->
  Chunker.run_from fuel content max_length overlap start = None.
Proof.
  intros Hstep. revert start. induction fuel as [|fuel IH]; intros start Hs Hlen; [done|].
  simpl. destruct (next_inside start) as [chunk ->]; [lia|].
  rewrite IH; [done|lia|done].
Qed.

(** With a step of one character at least, the loop ends after as many
    iterations as characters are left, and one more to see the end. *)
Lemma run_from_ends (fuel : nat) (start : Z) :
  overlap < max_length -> Z.max 0 (content_length - start) < Z.of_nat fuel ->
  is_Some (Chunker.run_from fuel content max_length overlap start).
Proof.
  intros Hstep. revert start. induction fuel as [|fuel IH]; intros start Hfuel; [lia|].
  simpl. destruct (Z.lt_ge_cases start content_length) as [Hlt|Hge].
  - destruct (next_inside start Hlt) as [chunk ->].
    destruct (IH (start + (max_length - overlap))) as [chunks ->]; [lia|].
    by eexists.
  - rewrite next_outside by done. by eexists.
Qed.

Lemma length_substring (n m : nat) (s : string) :
  (n + m <= String.length s)%nat -> String.length (String.substring n m s) = m.
Proof.
  revert n m. induction s as [|c s IH]; intros n m Hle; simpl in Hle.
  - assert (n = 0 /\ m = 0)%nat as [-> ->] by lia. done.
  - destruct n as [|n]; simpl.
    + destruct m as [|m]; [done|]. simpl. rewrite IH; [done|lia].
    + apply IH. lia.
Qed.

(** A chunk that is not the last one has [max_length + overlap] characters,
    and the next one starts [2 * overlap] characters before its end. *)
Lemma next_chunk_length (start : Z) :
  0 <= start -> 0 <= max_length + overlap ->
  start + max_length + overlap < content_length ->
  exists chunk,
    Chunker.next content max_length overlap start
    = Some (chunk, start + max_length + overlap - 2 * overlap)
    /\ Z.of_nat (String.length chunk) = max_length + overlap.
Proof.
  intros Hstart Hsum Hend. unfold Chunker.next. fold content_length.
  destruct (Z.ltb_spec start content_length); [|lia].
  destruct (Z.ltb_spec (start + max_length + overlap) content_length); [|lia].
  eexists. split; [do 2 f_equal; lia|].
  unfold PyStr.slice, PyStr.slice_bound. fold content_length.
  destruct (Z.ltb_spec start 0); [lia|].
  destruct (Z.ltb_spec (start + max_length + overlap) 0); [lia|].
  rewrite length_substring; unfold content_length in *; lia.
Qed.

End ChunkerFacts.

(** C5: [split_file] on [content = "abcdefghij"], [max_length = 4] and
    [overlap = 1] yields a first chunk of five characters, more than
    [max_length], and the first two chunks share the two characters "de",
    twice [overlap]. *)
Theorem split_file_exceeds_max_length :
  Chunker.split_file 11 "abcdefghij" 4 1
  = Some ["abcde"; "defgh"; "ghij"; "j"].
Proof. reflexivity. Qed.

(** C6, as the code has it: on a content that is not empty, [split_file]
    with [overlap >= max_length] raises nothing and never ends (every
    request gets a chunk, and no number of iterations completes the
    list), and with [overlap < max_length] the sequence of chunks is
    finite. *)
Theorem split_file_ends_iff_step_positive (content : string) (max_length overlap : Z) :
  content <> "" ->
  (max_length <= overlap ->
     (forall n, length (Chunker.take_from n content max_length overlap 0) = n)
     /\ (forall fuel, Chunker.split_file fuel content max_length overlap = None))
  /\ (overlap < max_length ->
        exists chunks,
          Chunker.split_file (S (String.length content)) content max_length overlap
          = Some chunks).
Proof.
  intros Hne.
  assert (0 < Z.of_nat (String.length content)) as Hlen.
  { destruct content; [done|]. simpl. lia. }
  split.
  - intros Hstep. split.
    + intros n. by apply take_from_stuck.
    + intros fuel. by apply run_from_stuck.
  - intros Hstep. apply run_from_ends; [done|lia].
Qed.

(** ** Properties of [str.replace] and of the [modify] action *)

Section Replace.

Lemma append_cons (c : ascii) (s t : string) :
  String c s +:+ t = String c (s +:+ t).
Proof. reflexivity. Qed.

Lemma append_nil_l (t : string) : "" +:+ t = t.
Proof. reflexivity. Qed.

Lemma prefix_nil_r (old : string) :
  old <> "" -> String.prefix old "" = false.
Proof. by destruct old. Qed.

(** The characters of an occurrence that was replaced are passed over. *)
Lemma replace_from_skip (old new : string) (k : nat) (s : string) :
  PyStr.replace_from old new k s
  = PyStr.replace_from old new 0 (PyStr.drop k s).
Proof.
  revert s. induction k as [|k IH]; intros s; [done|].
  destruct s as [|c s]; [done|]. simpl. apply IH.
Qed.

(** [replace] replaces the first occurrence and goes on behind it in the
    same way: every occurrence met from the left is replaced. *)
Lemma replace_from_find (old new s : string) :
  old <> "" ->
  PyStr.replace_from old new 0 s =
    match PyStr.find old s with
    | None => s
    | Some i =>
        PyStr.take i s +:+ new
        +:+ PyStr.replace_from old new 0 (PyStr.drop (i + String.length old) s)
    end.
Proof.
  intros Hold. induction s as [|c s IH].
  - cbn [PyStr.replace_from PyStr.find]. by rewrite prefix_nil_r.
  - cbn [PyStr.replace_from PyStr.find].
    destruct (String.prefix old (String c s)) eqn:Hp.
    + rewrite replace_from_skip. unfold PyStr.take. simpl String.substring.
      rewrite append_nil_l. do 2 f_equal.
      destruct old as [|c' old]; [done|]. simpl. by rewrite Nat.sub_0_r.
    + rewrite IH. destruct (PyStr.find old s) as [i|]; [|done]. simpl.
      unfold PyStr.take. simpl. by rewrite append_cons.
Qed.

Lemma contains_find (old s : string) :
  PyStr.contains old s = bool_decide (is_Some (PyStr.find old s)).
Proof.
  induction s as [|c s IH].
  - cbn [PyStr.contains PyStr.find]. by destruct (String.prefix old "").
  - cbn [PyStr.contains PyStr.find].
    destruct (String.prefix old (String c s)); [done|].
    rewrite IH. simpl. apply bool_decide_ext.
    destruct (PyStr.find old s); simpl; split; intros [? ?]; by eauto.
Qed.

End Replace.

(** ** Properties of the line editor *)

Section MonadFacts.

Lemma reads_only_ret {A} (a : A) : reads_only (ret a).
Proof. done. Qed.

Lemma reads_only_raise {A} (e : exn) : reads_only (@raise A e).
Proof. done. Qed.

Lemma reads_only_lift {A} (o : outcome A) : reads_only (lift o).
Proof. done. Qed.

Lemma reads_only_call {A} (d : nat) (o : outcome A) : reads_only (call d o).
Proof. by destruct d. Qed.

Lemma reads_only_isfile (p : string) : reads_only (os_path_isfile p).
Proof. done. Qed.

Lemma reads_only_exists (p : string) : reads_only (os_path_exists p).
Proof. done. Qed.

Lemma reads_only_open_read (p : string) : reads_only (open_read p).
Proof. intros st. unfold open_read. by destruct (nodes st !! p) as [[]|]. Qed.

Lemma reads_only_bind {A B} (c : M A) (k : A -> M B) :
  reads_only c -> (forall a, reads_only (k a)) -> reads_only (bind c k).
Proof.
  intros Hc Hk st. unfold bind. specialize (Hc st).
  destruct (c st) as [[a|e] st']; simpl in *; subst; [apply Hk|done].
Qed.

Lemma reads_only_try {A} (c : M A) (h : exn -> M A) :
  reads_only c -> (forall e, reads_only (h e)) -> reads_only (try_except c h).
Proof.
  intros Hc Hh st. unfold try_except. specialize (Hc st).
  destruct (c st) as [[a|e] st']; simpl in *; subst; [done|apply Hh].
Qed.

Lemma open_write_ok (p data : string) (st : state) :
  nodes st !! p <> Some Dir ->
  nodes st !! posixpath.dirname p = Some Dir ->
  open_write p data st
  = (Return tt, {| nodes := <[p := File data]> (nodes st);
                   history := history st ++ [EvWrite p data] |}).
Proof.
  intros Hp Hd. unfold open_write, bind, open_for_output.
  destruct (nodes st !! p) as [[]|]; try done; by rewrite Hd.
Qed.

Lemma open_append_ok (p text : string) (st : state) :
  nodes st !! p <> Some Dir ->
  nodes st !! posixpath.dirname p = Some Dir ->
  open_append p text st
  = (Return tt, {| nodes := <[p := File (content_of st p +:+ text)]> (nodes st);
                   history := history st ++ [EvAppend p text] |}).
Proof.
  intros Hp Hd. unfold open_append, bind, open_for_output.
  destruct (nodes st !! p) as [[]|]; try done; by rewrite Hd.
Qed.

End MonadFacts.

Section PathFacts.

Lemma length_append (s t : string) :
  String.length (s +:+ t) = (String.length s + String.length t)%nat.
Proof. induction s as [|c s IH]; simpl; [done|]. by rewrite <- IH. Qed.

Lemma append_suffix_ne (p ext : string) : ext <> "" -> p +:+ ext <> p.
Proof.
  intros Hext Heq. apply (f_equal String.length) in Heq.
  rewrite length_append in Heq. destruct ext; [done|]. simpl in Heq. lia.
Qed.

Lemma contains_sep_append (p ext : string) :
  PyStr.contains posixpath.sep_s ext = false ->
  PyStr.contains posixpath.sep_s (p +:+ ext) = PyStr.contains posixpath.sep_s p.
Proof.
  intros Hext. induction p as [|c p IH]; [done|].
  rewrite append_cons. cbn [PyStr.contains]. rewrite IH. f_equal.
  unfold posixpath.sep_s. cbn [String.prefix].
  destruct (ascii_dec "/" c); [|done]. by destruct p, ext.
Qed.

Lemma head_upto_last_sep_append (p ext : string) :
  PyStr.contains posixpath.sep_s ext = false ->
  posixpath.head_upto_last_sep (p +:+ ext) = posixpath.head_upto_last_sep p.
Proof.
  intros Hext. induction p as [|c p IH].
  - rewrite append_nil_l. destruct ext as [|c ext]; [done|].
    cbn [posixpath.head_upto_last_sep]. by rewrite Hext.
  - rewrite append_cons. cbn [posixpath.head_upto_last_sep].
    rewrite <- append_cons, contains_sep_append by done. by rewrite IH.
Qed.

(** A suffix without a separator stays in the same directory. *)
Lemma dirname_append (p ext : string) :
  PyStr.contains posixpath.sep_s ext = false ->
  posixpath.dirname (p +:+ ext) = posixpath.dirname p.
Proof.
  intros Hext. unfold posixpath.dirname.
  by rewrite head_upto_last_sep_append.
Qed.

End PathFacts.

Section EditorFacts.

Import LineEditor.

Variable cwd : string.

(** Validation, loading and the loop write nothing. *)
Lemma edit_line_stage_reads_only (d : nat) (filename : string) (line_numbers : line_spec)
    (action : string) (old_text new_text : option string) :
  reads_only (edit_line_stage cwd d filename line_numbers action old_text new_text).
Proof.
  unfold edit_line_stage.
  apply reads_only_bind; [apply reads_only_call|intros filepath].
  apply reads_only_bind; [apply reads_only_isfile|intros isfile].
  destruct (negb isfile); [apply reads_only_ret|].
  destruct line_numbers as [ln| |]; try apply reads_only_ret.
  destruct (negb (mem action actions)); [apply reads_only_ret|].
  destruct (_ && _); [apply reads_only_ret|].
  destruct (_ && _); [apply reads_only_ret|].
  destruct (parse_line_numbers ln) as [nums|]; [|apply reads_only_ret].
  apply reads_only_bind; [apply reads_only_open_read|intros text].
  apply reads_only_bind; [apply reads_only_lift|intros [msg|lines]];
    apply reads_only_ret.
Qed.

(** Every message that the loop returns early starts with "Error: ". *)
Lemma apply_edits_error_message (action : string) (old_text new_text : option string)
    (line_numbers : list Z) (lines : list string) (msg : string) :
  apply_edits action old_text new_text line_numbers lines = Return (inl msg) ->
  PyStr.startswith msg "Error: " = true.
Proof.
  revert lines. induction line_numbers as [|n rest IH]; intros lines; [done|].
  cbn [apply_edits].
  destruct (_ || _); [by intros [= <-]|].
  destruct (mem action ["add"; "insert"]).
  { destruct new_text; [apply IH|done]. }
  destruct (mem action ["replace"; "modify"]).
  { destruct (lines !! _) as [line|]; [|done].
    destruct old_text as [old|]; [|done].
    destruct (negb _); [by intros [= <-]|].
    destruct new_text; [apply IH|done]. }
  destruct (bool_decide _); apply IH.
Qed.

(** So does every message that validation, loading and the loop hand
    back: a call fails in these stages exactly when it returns a message
    that starts with "Error: ". *)
Lemma edit_line_stage_error_message (d : nat) (filename : string)
    (line_numbers : line_spec) (action : string) (old_text new_text : option string)
    (st : state) (msg : string) :
  fst (edit_line_stage cwd d filename line_numbers action old_text new_text st)
  = Return (inl msg) ->
  PyStr.startswith msg "Error: " = true.
Proof.
  unfold edit_line_stage, bind, call, lift, raise, ret, os_path_isfile, open_read.
  destruct d as [|d]; [done|].
  destruct (safe_join (WORKING_DIRECTORY cwd) [filename]) as [filepath|e]; [|done].
  destruct (nodes st !! filepath) as [[text|]|] eqn:Hnode; simpl;
    try by intros [= <-].
  destruct line_numbers as [ln| |]; try by intros [= <-].
  destruct (mem action actions); simpl; [|by intros [= <-]].
  destruct (_ && _); [by intros [= <-]|].
  destruct (_ && _); [by intros [= <-]|].
  destruct (parse_line_numbers ln) as [nums|]; [|by intros [= <-]].
  rewrite Hnode.
  destruct (apply_edits _ _ _ _ _) as [[m|lines]|e] eqn:Happly; simpl; try done.
  intros [= <-]. by eapply apply_edits_error_message.
Qed.

(** What a call that got through validation, loading and the loop has
    established. *)
Lemma edit_line_stage_passed (d : nat) (filename : string) (line_numbers : line_spec)
    (action : string) (old_text new_text : option string) (st : state) (s : staged) :
  fst (edit_line_stage cwd d filename line_numbers action old_text new_text st)
  = Return (inr s) ->
  exists text ln nums,
    safe_join (WORKING_DIRECTORY cwd) [filename] = Return (staged_path s)
    /\ nodes st !! staged_path s = Some (File text)
    /\ original_lines s = PyStr.lines_of (PyStr.universal_newlines text)
    /\ line_numbers = LineStr ln
    /\ mem action actions = true
    /\ parse_line_numbers ln = Some nums
    /\ apply_edits action old_text new_text nums (original_lines s)
       = Return (inr (final_lines s)).
Proof.
  unfold edit_line_stage, bind, call, lift, raise, ret, os_path_isfile, open_read.
  destruct d as [|d]; [done|].
  destruct (safe_join (WORKING_DIRECTORY cwd) [filename]) as [filepath|e]; [|done].
  destruct (nodes st !! filepath) as [[text|]|] eqn:Hnode; simpl; try done.
  destruct line_numbers as [ln| |]; try done.
  destruct (mem action actions) eqn:Hact; simpl; [|done].
  destruct (_ && _); [done|]. destruct (_ && _); [done|].
  destruct (parse_line_numbers ln) as [nums|] eqn:Hnums; [|done].
  rewrite Hnode.
  destruct (apply_edits _ _ _ _ _) as [[msg|lines]|e] eqn:Happly; simpl; try done.
  intros [= <-]. simpl. by exists text, ln, nums.
Qed.

(** Backup, commit and report, when the backup can be opened. *)
Lemma edit_line_commit_writes (filename action : string) (debug : bool)
    (s : staged) (st : state) (text : string) :
  nodes st !! staged_path s = Some (File text) ->
  nodes st !! (staged_path s +:+ ".bak") <> Some Dir ->
  nodes st !! posixpath.dirname (staged_path s +:+ ".bak") = Some Dir ->
  edit_line_commit filename action debug s st
  = (if debug then Raise (NameError "difflib")
     else Return (summary filename action (original_lines s) (final_lines s)),
     {| nodes :=
          <[staged_path s := File (PyStr.concat_lines (final_lines s))]>
            (<[staged_path s +:+ ".bak"
               := File (PyStr.concat_lines (original_lines s))]> (nodes st));
        history :=
          history st
          ++ [EvWrite (staged_path s +:+ ".bak")
                (PyStr.concat_lines (original_lines s));
              EvWrite (staged_path s) (PyStr.concat_lines (final_lines s))] |}).
Proof.
  intros Hfile Hbak Hdir.
  assert (staged_path s +:+ ".bak" <> staged_path s) as Hne
    by by apply append_suffix_ne.
  unfold edit_line_commit, bind.
  rewrite open_write_ok by done.
  rewrite open_write_ok; simpl.
  - rewrite <- app_assoc. simpl.
    destruct debug; [|done].
    unfold open_read, raise. simpl. by rewrite lookup_insert_eq.
  - rewrite lookup_insert_ne by done. by rewrite Hfile.
  - rewrite dirname_append in Hdir by done.
    rewrite lookup_insert_ne; [done|]. intros Heq.
    rewrite <- Heq in Hdir. done.
Qed.

(** What [edit_line_commit] returns, when it returns, is the summary. *)
Lemma edit_line_commit_returns (filename action : string) (debug : bool)
    (s : staged) (st : state) (msg : string) :
  fst (edit_line_commit filename action debug s st) = Return msg ->
  msg = summary filename action (original_lines s) (final_lines s).
Proof.
  unfold edit_line_commit, bind.
  destruct (open_write _ _ st) as [[[]|e] st1]; [|done].
  destruct (open_write _ _ st1) as [[[]|e] st2]; [|done].
  destruct debug.
  - destruct (open_read _ st2) as [[text|e] st3]; done.
  - simpl. by intros [= <-].
Qed.

(** C3: an [edit_line] call that returns one of the error messages of the
    validation or of the loop (missing file, invalid line numbers, unknown
    action, missing text argument, line out of range, text not found) has
    written nothing: the state of the file system, with the target file
    and without a backup, and the history of writes are as before. *)
Theorem edit_line_error_writes_nothing (d : nat) (filename : string)
    (line_numbers : line_spec) (action : string) (old_text new_text : option string)
    (debug : bool) (st : state) (msg : string) :
  fst (edit_line cwd d filename line_numbers action old_text new_text debug st)
  = Return msg ->
  PyStr.startswith msg "Error: " = true ->
  snd (edit_line cwd d filename line_numbers action old_text new_text debug st) = st.
Proof.
  destruct d as [|d]; [done|]. unfold edit_line, bind.
  pose proof (edit_line_stage_reads_only d filename line_numbers action
                old_text new_text st) as Hst.
  destruct (edit_line_stage _ _ _ _ _ _ _ st) as [[[m|s]|e] st1];
    simpl in Hst; subst st1; try done.
  intros Hret Herr. apply edit_line_commit_returns in Hret. subst msg.
  discriminate Herr.
Qed.

(** C4: an [edit_line] call that got through validation and the loop, and
    can open the backup file, writes the lines as they were read to
    [<path>.bak] first and the lines after the loop to the file itself
    second, and nothing else, whether or not the two differ. *)
Theorem edit_line_backup_then_commit (d : nat) (filename : string)
    (line_numbers : line_spec) (action : string) (old_text new_text : option string)
    (debug : bool) (st : state) (s : staged) :
  fst (edit_line_stage cwd d filename line_numbers action old_text new_text st)
  = Return (inr s) ->
  nodes st !! (staged_path s +:+ ".bak") <> Some Dir ->
  nodes st !! posixpath.dirname (staged_path s +:+ ".bak") = Some Dir ->
  let st' :=
    snd (edit_line cwd (S d) filename line_numbers action old_text new_text debug st) in
  original_lines s
  = PyStr.lines_of (PyStr.universal_newlines (content_of st (staged_path s)))
  /\ history st'
     = history st
       ++ [EvWrite (staged_path s +:+ ".bak") (PyStr.concat_lines (original_lines s));
           EvWrite (staged_path s) (PyStr.concat_lines (final_lines s))]
  /\ nodes st' !! (staged_path s +:+ ".bak")
     = Some (File (PyStr.concat_lines (original_lines s)))
  /\ nodes st' !! staged_path s
     = Some (File (PyStr.concat_lines (final_lines s))).
Proof.
  intros Hstage Hbak Hdir.
  destruct (edit_line_stage_passed _ _ _ _ _ _ _ _ Hstage)
    as (text & ln & nums & _ & Hfile & Horig & _).
  pose proof (edit_line_stage_reads_only d filename line_numbers action
                old_text new_text st) as Hst.
  unfold edit_line, bind.
  destruct (edit_line_stage _ _ _ _ _ _ _ st) as [o st1].
  simpl in Hst, Hstage. subst st1 o.
  rewrite (edit_line_commit_writes _ _ _ _ _ text) by done. simpl.
  split; [|split; [done|split]].
  - unfold content_of. by rewrite Hfile.
  - rewrite lookup_insert_ne.
    + by rewrite lookup_insert_eq.
    + intros Heq. by apply (append_suffix_ne (staged_path s) ".bak").
  - by rewrite lookup_insert_eq.
Qed.

(** Without the debug flag, a call that got through returns the summary,
    which says whether the lines changed. *)
Lemma edit_line_quiet_returns_summary (d : nat) (filename : string)
    (line_numbers : line_spec) (action : string) (old_text new_text : option string)
    (st : state) (s : staged) :
  fst (edit_line_stage cwd d filename line_numbers action old_text new_text st)
  = Return (inr s) ->
  nodes st !! (staged_path s +:+ ".bak") <> Some Dir ->
  nodes st !! posixpath.dirname (staged_path s +:+ ".bak") = Some Dir ->
  fst (edit_line cwd (S d) filename line_numbers action old_text new_text false st)
  = Return (summary filename action (original_lines s) (final_lines s)).
Proof.
  intros Hstage Hbak Hdir.
  destruct (edit_line_stage_passed _ _ _ _ _ _ _ _ Hstage)
    as (text & ln & nums & _ & Hfile & _).
  pose proof (edit_line_stage_reads_only d filename line_numbers action
                old_text new_text st) as Hst.
  unfold edit_line, bind.
  destruct (edit_line_stage _ _ _ _ _ _ _ st) as [o st1].
  simpl in Hst, Hstage. subst st1 o.
  by rewrite (edit_line_commit_writes _ _ _ _ _ text).
Qed.

(** C10: with the debug flag set, as it is by default, a call that got
    through validation and the loop commits the new content and then raises
    [NameError] for [difflib], which the module never imports: no summary
    is returned. *)
Theorem edit_line_debug_raises (d : nat) (filename : string)
    (line_numbers : line_spec) (action : string) (old_text new_text : option string)
    (st : state) (s : staged) :
  fst (edit_line_stage cwd d filename line_numbers action old_text new_text st)
  = Return (inr s) ->
  nodes st !! (staged_path s +:+ ".bak") <> Some Dir ->
  nodes st !! posixpath.dirname (staged_path s +:+ ".bak") = Some Dir ->
  let r := edit_line cwd (S d) filename line_numbers action old_text new_text true st in
  fst r = Raise (NameError "difflib")
  /\ nodes (snd r) !! staged_path s
     = Some (File (PyStr.concat_lines (final_lines s))).
Proof.
  intros Hstage Hbak Hdir.
  destruct (edit_line_stage_passed _ _ _ _ _ _ _ _ Hstage)
    as (text & ln & nums & _ & Hfile & _).
  pose proof (edit_line_stage_reads_only d filename line_numbers action
                old_text new_text st) as Hst.
  unfold edit_line, bind.
  destruct (edit_line_stage _ _ _ _ _ _ _ st) as [o st1].
  simpl in Hst, Hstage. subst st1 o.
  rewrite (edit_line_commit_writes _ _ _ _ _ text) by done. simpl.
  split; [done|]. by rewrite lookup_insert_eq.
Qed.

End EditorFacts.

Section ModifyFacts.

Import LineEditor.

(** C8, as the code has it: for the action [modify] (or its alias
    [replace]) and a target line within the list, when [old_text] occurs in
    the line, the line becomes [line.replace(old_text, new_text)], in which
    every occurrence of [old_text] met from the left is replaced (the first
    one, and then those of the rest of the line in the same way); when it
    does not occur, the call returns the error message that the text was
    not found. *)
Theorem modify_replaces_every_occurrence (action old new : string) (n : Z)
    (rest : list Z) (lines : list string) (line : string) :
  action = "modify" \/ action = "replace" ->
  1 <= n ->
  lines !! Z.to_nat (n - 1) = Some line ->
  apply_edits action (Some old) (Some new) (n :: rest) lines
  = (if PyStr.contains old line
     then apply_edits action (Some old) (Some new) rest
            (<[Z.to_nat (n - 1) := PyStr.replace line old new]> lines)
     else Return (inl ("Error: old_text '" +:+ old +:+ "' not found on line "
                       +:+ PyStr.of_Z n +:+ " '" +:+ line +:+ "'.")))
  /\ PyStr.replace line old new
     = (if bool_decide (old = "") then PyStr.intersperse new line
        else match PyStr.find old line with
             | None => line
             | Some i =>
                 PyStr.take i line +:+ new
                 +:+ PyStr.replace (PyStr.drop (i + String.length old) line) old new
             end).
Proof.
  intros Hact Hn Hline. split.
  - cbn [apply_edits].
    pose proof (lookup_lt_Some _ _ _ Hline) as Hlt.
    destruct (Z.ltb_spec n 1); [lia|].
    destruct (Z.gtb_spec n (Z.of_nat (length lines))); [lia|]. simpl.
    rewrite Hline.
    assert (mem action ["add"; "insert"] = false
            /\ mem action ["replace"; "modify"] = true) as [-> ->].
    { by destruct Hact as [-> | ->]. }
    by destruct (PyStr.contains old line).
  - unfold PyStr.replace. case_bool_decide as Hold; [done|].
    by apply replace_from_find.
Qed.

End ModifyFacts.

(** The insert of the specification: "X" before line 2 of three lines gives
    four lines, and the backup holds the three. *)
Example edit_line_insert :
  let r := LineEditor.edit_line Example.cwd 8 "b.txt" (LineEditor.LineStr "2")
             "insert" None (Some "X") false Example.with_file in
  fst r = Return "File: b.txt, Action: Insert, Result: Success."
  /\ PyStr.lines_of (content_of (snd r) (Example.ws "b.txt"))
     = LineEditor.final_lines Example.staged_insert
  /\ PyStr.lines_of (content_of (snd r) (Example.ws "b.txt" +:+ ".bak"))
     = Example.lines_before.
Proof. repeat split; vm_compute; reflexivity. Qed.

(** An edit that changes nothing still writes the backup and the file,
    and says so in the summary. *)
Example edit_line_no_change :
  let r := LineEditor.edit_line Example.cwd 8 "b.txt" (LineEditor.LineStr "1")
             "modify" (Some "X") (Some "X") false Example.with_file in
  fst r = Return "File: b.txt, Action: Modify, Result: No changes made"
  /\ history (snd r)
     = history Example.with_file
       ++ [EvWrite (Example.ws "b.txt" +:+ ".bak") Example.three_lines;
           EvWrite (Example.ws "b.txt") Example.three_lines].
Proof. repeat split; vm_compute; reflexivity. Qed.

(** ** Properties of the operation log *)

Section StringFacts.

Lemma append_assoc (s t u : string) : (s +:+ t) +:+ u = s +:+ (t +:+ u).
Proof.
  induction s as [|c s IH]; [done|].
  rewrite !append_cons. by rewrite IH.
Qed.

Lemma append_nil_r (s : string) : s +:+ "" = s.
Proof. induction s as [|c s IH]; [done|]. rewrite append_cons. by rewrite IH. Qed.

Lemma prefix_append (e t : string) : String.prefix e (e +:+ t) = true.
Proof.
  induction e as [|c e IH]; [by destruct t|].
  rewrite append_cons. cbn [String.prefix]. by destruct (ascii_dec c c).
Qed.

(** A text that was appended behind [s] occurs in the result. *)
Lemma contains_append (e s t : string) :
  PyStr.contains e (s +:+ e +:+ t) = true.
Proof.
  induction s as [|c s IH].
  - rewrite append_nil_l. destruct e as [|c e]; [by destruct t|].
    rewrite append_cons. cbn [PyStr.contains]. rewrite <- append_cons.
    by rewrite prefix_append.
  - rewrite append_cons. cbn [PyStr.contains]. rewrite IH. apply orb_true_r.
Qed.

Lemma no_cr_cons (c : ascii) (s : string) :
  no_cr (String c s) <-> c <> PyStr.CR /\ no_cr s.
Proof.
  unfold no_cr. cbn [PyStr.contains String.prefix].
  destruct (ascii_dec PyStr.CR c) as [<-|Hne].
  - destruct s; simpl; split; try done; by intros [? _].
  - simpl. split; [by intros ?|by intros [_ ?]].
Qed.

Lemma no_cr_append (s t : string) : no_cr s -> no_cr t -> no_cr (s +:+ t).
Proof.
  intros Hs Ht. induction s as [|c s IH]; [done|].
  rewrite append_cons. apply no_cr_cons. apply no_cr_cons in Hs as [? ?]. auto.
Qed.

(** Reading leaves a text without carriage return as it is, also in front
    of another text. *)
Lemma universal_newlines_no_cr (e t : string) :
  no_cr e ->
  PyStr.universal_newlines (e +:+ t) = e +:+ PyStr.universal_newlines t.
Proof.
  intros He. induction e as [|c e IH]; [done|].
  apply no_cr_cons in He as [Hc He].
  rewrite !append_cons. cbn [PyStr.universal_newlines].
  rewrite bool_decide_false by done. by rewrite IH.
Qed.

(** Reading a text that is followed by one that does not start with a
    line feed reads the two one after the other. *)
Lemma universal_newlines_append (s t : string) :
  String.prefix PyStr.nl t = false ->
  PyStr.universal_newlines (s +:+ t)
  = PyStr.universal_newlines s +:+ PyStr.universal_newlines t.
Proof.
  intros Ht. remember (String.length s) as n eqn:Hn. revert s Hn.
  induction n as [n IH] using lt_wf_ind; intros s Hn.
  destruct s as [|c s]; [done|].
  rewrite append_cons. cbn [PyStr.universal_newlines].
  case_bool_decide as Hc.
  - destruct s as [|c2 s].
    + rewrite append_nil_l. destruct t as [|c2 t]; [done|].
      case_bool_decide as Hc2; [|done].
      subst c2. cbn [String.prefix PyStr.nl] in Ht.
      destruct (ascii_dec PyStr.LF PyStr.LF); [|done]. by destruct t.
    + rewrite append_cons. case_bool_decide.
      * rewrite append_cons. f_equal.
        apply (IH (String.length s)); [simpl in Hn; lia|done].
      * rewrite append_cons. f_equal. rewrite <- append_cons.
        apply (IH (String.length (String c2 s))); [simpl in *; lia|done].
  - rewrite append_cons. f_equal.
    apply (IH (String.length s)); [simpl in Hn; lia|done].
Qed.

End StringFacts.

Section LogFacts.

Variable cwd : string.

(** The log file resolves to its own path, as it does when the process was
    started in a directory with a normalized absolute path. *)
Hypothesis log_resolves :
  safe_join (WORKING_DIRECTORY cwd) [LOG_FILE] = Return (LOG_FILE_PATH cwd).

Local Abbreviation lp := (LOG_FILE_PATH cwd).

Lemma append_to_file_unfold (d : nat) (filename text : string) :
  append_to_file cwd (S d) filename text
  = try_except
      (bind (call d (safe_join (WORKING_DIRECTORY cwd) [filename])) (fun filepath =>
       bind (open_append filepath text) (fun _ =>
       bind (log_operation cwd d "append" filename) (fun _ =>
       ret "Text appended successfully."))))
      (fun e => ret ("Error: " +:+ str_exn e)).
Proof. reflexivity. Qed.

Lemma log_operation_unfold (d : nat) (operation filename : string) :
  log_operation cwd (S d) operation filename
  = bind (os_path_exists (LOG_FILE_PATH cwd)) (fun ex =>
    bind (if negb ex then open_write (LOG_FILE_PATH cwd) log_header else ret tt) (fun _ =>
    bind (append_to_file cwd d LOG_FILE (log_entry_of operation filename)) (fun _ =>
    ret tt))).
Proof. reflexivity. Qed.

Lemma log_ready_append_file (text : string) (st : state) :
  log_ready cwd st -> log_ready cwd (append_file lp text st).
Proof.
  intros [Hfile Hdir]. split; simpl.
  - by rewrite lookup_insert_eq.
  - rewrite lookup_insert_ne; [done|].
    intros Heq. apply Hfile. congruence.
Qed.


Lemma append_file_exists (text : string) (st : state) :
  is_Some (nodes (append_file lp text st) !! lp).
Proof. simpl. rewrite lookup_insert_eq. by eexists. Qed.

(** [append_to_file] on the log file: it returns for every depth but zero,
    and what it appends is [log_chain]. *)
Lemma append_to_file_log (d : nat) :
  forall (text : string) (st : state),
    log_ready cwd st ->
    exists o,
      append_to_file cwd d LOG_FILE text st
      = (o, append_all lp (log_chain d text) st)
      /\ (d <> 0%nat -> exists msg, o = Return msg).
Proof.
  induction d as [d IH] using lt_wf_ind. intros text st Hst.
  destruct d as [|[|d]].
  - by eexists.
  - eexists. split; [done|]. intros _. by eexists.
  - destruct (IH d ltac:(lia) log_line (append_file lp text st)) as (o & Heq & _).
    { by apply log_ready_append_file. }
    destruct Hst as [Hfile Hdir].
    rewrite append_to_file_unfold, log_operation_unfold.
    unfold try_except, bind, call, lift, ret. rewrite log_resolves.
    rewrite open_append_ok by done.
    change {| nodes := _; history := _ |} with (append_file lp text st).
    unfold os_path_exists.
    rewrite bool_decide_true by apply append_file_exists.
    cbn [negb]. fold log_line. rewrite Heq.
    destruct o as [m|e]; eexists; (split; [done|intros _; by eexists]).
Qed.

Lemma concat_lines_cons (x : string) (l : list string) :
  PyStr.concat_lines (x :: l) = x +:+ PyStr.concat_lines l.
Proof.
  unfold PyStr.concat_lines. destruct l as [|y l]; simpl.
  - by rewrite append_nil_r.
  - done.
Qed.

Lemma append_file_other (p q text : string) (st : state) :
  p <> q -> nodes (append_file p text st) !! q = nodes st !! q.
Proof. intros Hne. simpl. by rewrite lookup_insert_ne. Qed.

Lemma append_file_content (p text : string) (st : state) :
  nodes (append_file p text st) !! p = Some (File (content_of st p +:+ text)).
Proof. simpl. by rewrite lookup_insert_eq. Qed.

Lemma append_all_other (p q : string) (texts : list string) (st : state) :
  p <> q -> nodes (append_all p texts st) !! q = nodes st !! q.
Proof.
  intros Hne. revert st. induction texts as [|t texts IH]; intros st; [done|].
  simpl. rewrite IH. by apply append_file_other.
Qed.

Lemma append_all_content (p : string) (texts : list string) (st : state) :
  content_of (append_all p texts st) p
  = content_of st p +:+ PyStr.concat_lines texts.
Proof.
  revert st. induction texts as [|t texts IH]; intros st.
  - simpl. by rewrite append_nil_r.
  - simpl. rewrite IH, concat_lines_cons. unfold content_of at 1.
    rewrite append_file_content. by rewrite append_assoc.
Qed.

Lemma append_all_is_file (p : string) (texts : list string) (st : state) (c : string) :
  nodes st !! p = Some (File c) ->
  nodes (append_all p texts st) !! p
  = Some (File (content_of (append_all p texts st) p)).
Proof.
  revert st c. induction texts as [|t texts IH]; intros st c Hst.
  - simpl. unfold content_of. by rewrite Hst.
  - simpl. eapply IH. apply append_file_content.
Qed.

Lemma with_log_other (q : string) (st : state) :
  lp <> q -> nodes (with_log cwd st) !! q = nodes st !! q.
Proof.
  intros Hne. unfold with_log. destruct (nodes st !! lp); [done|].
  simpl. by rewrite lookup_insert_ne.
Qed.

Lemma with_log_ready (st : state) :
  log_ready cwd st -> log_ready cwd (with_log cwd st).
Proof.
  intros Hst. pose proof Hst as [Hfile Hdir]. unfold with_log.
  destruct (nodes st !! lp) eqn:Hn; [done|]. split; simpl.
  - by rewrite lookup_insert_eq.
  - rewrite lookup_insert_ne; [done|]. intros Heq. congruence.
Qed.

(** [log_operation]: it makes sure that the log file exists, and then
    appends what [append_to_file] appends, its entry first. *)
Lemma log_operation_log (d : nat) (operation filename : string) (st : state) :
  log_ready cwd st ->
  log_operation cwd (S d) operation filename st
  = (match d with O => Raise RecursionError | S _ => Return tt end,
     append_all lp (log_chain d (log_entry_of operation filename)) (with_log cwd st)).
Proof.
  intros Hst. pose proof (with_log_ready st Hst) as Hst'.
  destruct (append_to_file_log d (log_entry_of operation filename)
              (with_log cwd st) Hst') as (o & Heq & Hret).
  rewrite log_operation_unfold. unfold bind, os_path_exists, ret.
  assert ((if negb (bool_decide (is_Some (nodes st !! lp)))
           then open_write lp log_header else (fun st => (Return tt, st))) st
          = (Return tt, with_log cwd st)) as ->.
  { unfold with_log. destruct Hst as [Hfile Hdir].
    destruct (nodes st !! lp) as [n|] eqn:Hn.
    - rewrite bool_decide_true by by eexists. done.
    - rewrite bool_decide_false by by intros [? ?].
      simpl. rewrite open_write_ok; [done|by rewrite Hn|done]. }
  rewrite Heq. destruct d as [|d].
  - simpl in Heq. by injection Heq as <-.
  - destruct Hret as [msg ->]; done.
Qed.

(** What logging leaves alone: every file but the log file, and the
    directory of the log file. *)
Lemma logged_other (q : string) (texts : list string) (st : state) :
  lp <> q ->
  nodes (append_all lp texts (with_log cwd st)) !! q = nodes st !! q.
Proof. intros Hne. by rewrite append_all_other, with_log_other. Qed.


(** Putting a file where one can be written leaves every place writable. *)
Lemma can_write_put (p q content : string) (h : list event) (st : state) :
  can_write st p -> can_write st q ->
  can_write {| nodes := <[p := File content]> (nodes st); history := h |} q.
Proof.
  intros [Hp Hpd] [Hq Hqd]. split; simpl.
  - destruct (decide (p = q)) as [->|Hne].
    + by rewrite lookup_insert_eq.
    + by rewrite lookup_insert_ne.
  - rewrite lookup_insert_ne; [done|]. intros Heq. congruence.
Qed.

Lemma can_write_append_file (p q text : string) (st : state) :
  can_write st p -> can_write st q -> can_write (append_file p text st) q.
Proof. apply can_write_put. Qed.




Lemma content_of_ext (st st' : state) (p : string) :
  nodes st' !! p = nodes st !! p -> content_of st' p = content_of st p.
Proof. unfold content_of. by intros ->. Qed.

(** [append_to_file] on a file that is not the log file. *)
Lemma append_to_file_other (d : nat) (filename text p : string) (st : state) :
  safe_join (WORKING_DIRECTORY cwd) [filename] = Return p ->
  can_write st p -> log_ready cwd st -> (2 <= d)%nat ->
  append_to_file cwd (S d) filename text st
  = (Return "Text appended successfully.",
     append_all lp (log_chain (d - 1) (log_entry_of "append" filename))
       (with_log cwd (append_file p text st))).
Proof.
  intros Hp Hw Hlog Hd. destruct d as [|[|d]]; [lia|lia|].
  rewrite append_to_file_unfold. unfold try_except, bind, call, lift, ret.
  rewrite Hp. pose proof Hw as [Hfile Hdir]. rewrite open_append_ok by done.
  change {| nodes := _; history := _ |} with (append_file p text st).
  rewrite log_operation_log.
  - by replace (S (S d) - 1)%nat with (S d) by lia.
  - by apply can_write_append_file.
Qed.


(** C7: with five frames or more, [log_operation] returns, having made
    sure that the log file exists and appended its entry to it, and having
    appended behind it the entry of that append itself, [log_line], and
    one more for every second frame that the interpreter has left. *)
Theorem log_operation_logs_its_own_appends (d : nat) (operation filename : string)
    (st : state) :
  log_ready cwd st ->
  (5 <= d)%nat ->
  let r := log_operation cwd d operation filename st in
  fst r = Return tt
  /\ content_of (snd r) lp
     = content_of (with_log cwd st) lp
       +:+ log_entry_of operation filename
       +:+ log_line
       +:+ PyStr.concat_lines (log_chain (d - 5) log_line).
Proof.
  intros Hlog Hd.
  destruct d as [|[|[|[|[|d]]]]]; try lia. cbv zeta.
  rewrite log_operation_log by done. split; [done|].
  cbn [snd log_chain]. rewrite append_all_content, !concat_lines_cons.
  by replace (S (S (S (S (S d)))) - 5)%nat with d by lia.
Qed.

Lemma read_file_log (d : nat) (st : state) :
  (2 <= d)%nat ->
  read_file cwd d LOG_FILE st = (Return (log_text cwd st), st).
Proof.
  intros Hd. destruct d as [|[|d]]; [lia|lia|].
  unfold read_file, try_except, bind, call, lift, ret, open_read, log_text.
  rewrite log_resolves. by destruct (nodes st !! lp) as [[c|]|].
Qed.

Lemma check_duplicate_operation_log (d : nat) (operation filename : string)
    (st : state) :
  (3 <= d)%nat ->
  check_duplicate_operation cwd d operation filename st
  = (Return (PyStr.contains (log_entry_of operation filename) (log_text cwd st)), st).
Proof.
  intros Hd. destruct d as [|d]; [lia|].
  unfold check_duplicate_operation, bind. by rewrite read_file_log by lia.
Qed.

Lemma write_to_file_duplicate (d : nat) (filename text : string) (st : state) :
  (4 <= d)%nat ->
  recorded cwd st "write" filename ->
  write_to_file cwd d filename text st
  = (Return "Error: File has already been updated.", st).
Proof.
  intros Hd (content & Hnode & Hin). destruct d as [|d]; [lia|].
  unfold write_to_file, bind.
  rewrite check_duplicate_operation_log by lia.
  unfold log_text. by rewrite Hnode, Hin.
Qed.

Lemma write_entry_no_cr (filename : string) :
  no_cr filename -> no_cr (log_entry_of "write" filename).
Proof.
  intros Hf. unfold log_entry_of.
  apply (no_cr_append "write"); [done|].
  apply (no_cr_append ": "); [done|]. by apply no_cr_append.
Qed.

(** An entry for a write that was appended to the log file is found by
    the duplicate check. *)
Lemma write_entry_found (filename base rest : string) :
  no_cr filename ->
  PyStr.contains (log_entry_of "write" filename)
    (PyStr.universal_newlines (base +:+ log_entry_of "write" filename +:+ rest))
  = true.
Proof.
  intros Hf.
  rewrite universal_newlines_append by done.
  rewrite universal_newlines_no_cr by by apply write_entry_no_cr.
  apply contains_append.
Qed.

(** What a write that returned the message of success has done. *)
Lemma write_to_file_done (d : nat) (filename text p : string) (st : state) :
  (4 <= d)%nat ->
  safe_join (WORKING_DIRECTORY cwd) [filename] = Return p ->
  nodes st !! posixpath.dirname p = Some Dir ->
  log_ready cwd st ->
  fst (write_to_file cwd d filename text st)
  = Return "File written to successfully." ->
  exists st_w,
    st_w = {| nodes := <[p := File text]> (nodes st);
              history := history st ++ [EvWrite p text] |}
    /\ can_write st p
    /\ snd (write_to_file cwd d filename text st)
       = append_all lp (log_chain (d - 2) (log_entry_of "write" filename))
           (with_log cwd st_w).
Proof.
  intros Hd Hp Hdir Hlog. destruct d as [|[|d]]; [lia|lia|].
  unfold write_to_file, bind.
  rewrite check_duplicate_operation_log by lia.
  destruct (PyStr.contains _ _); [done|].
  unfold try_except, bind, call, lift, ret, os_path_exists.
  rewrite Hp. rewrite bool_decide_true by by rewrite Hdir.
  cbn [negb].
  assert (nodes st !! p = Some Dir \/ nodes st !! p <> Some Dir)
    as [Hisdir|Hfile] by (destruct (nodes st !! p) as [[c|]|]; auto).
  { unfold open_write, bind, open_for_output. rewrite Hisdir. done. }
  rewrite open_write_ok by done.
  rewrite log_operation_log by by apply can_write_put.
  destruct d as [|d]; [lia|]. intros _. eexists. split; [done|].
  split; [done|]. cbn [snd]. by replace (S (S (S d)) - 2)%nat with (S d) by lia.
Qed.

(** X22: a write to a file for which [check_duplicate_operation] finds a
    write in what it reads from the log file returns the duplicate error
    and changes nothing; and after a write that returned the message of
    success (with four frames or more, to a file that is not the log
    file, under a name without carriage return, in a directory that
    exists, with the log file writable), the write is recorded, so that a
    second write to the same name returns the duplicate error and the
    file keeps the text of the first. *)
Theorem write_twice_rejected (d : nat) (filename : string) (st : state) :
  (4 <= d)%nat ->
  (recorded cwd st "write" filename ->
   forall text,
     write_to_file cwd d filename text st
     = (Return "Error: File has already been updated.", st))
  /\ (forall (d1 : nat) (p x : string),
        (4 <= d1)%nat ->
        safe_join (WORKING_DIRECTORY cwd) [filename] = Return p ->
        p <> lp ->
        no_cr filename ->
        nodes st !! posixpath.dirname p = Some Dir ->
        log_ready cwd st ->
        fst (write_to_file cwd d1 filename x st)
        = Return "File written to successfully." ->
        let st1 := snd (write_to_file cwd d1 filename x st) in
        recorded cwd st1 "write" filename
        /\ content_of st1 p = x
        /\ forall y,
             write_to_file cwd d filename y st1
             = (Return "Error: File has already been updated.", st1)).
Proof.
  intros Hd. split.
  { intros Hrec text. by apply write_to_file_duplicate. }
  intros d1 p x Hd1 Hp Hne Hcr Hdir Hlog Hok. cbv zeta.
  destruct (write_to_file_done d1 filename x p st Hd1 Hp Hdir Hlog Hok)
    as (st_w & Hst_w & Hw & ->).
  assert (log_ready cwd st_w) as Hlog_w by (subst st_w; by apply can_write_put).
  destruct d1 as [|[|[|[|d1]]]]; try lia.
  replace (S (S (S (S d1))) - 2)%nat with (S (S d1)) by lia.
  set (entry := log_entry_of "write" filename).
  set (st1 := append_all lp (log_chain (S (S d1)) entry) (with_log cwd st_w)).
  assert (recorded cwd st1 "write" filename) as Hrec.
  { exists (content_of st1 lp). split.
    - destruct (with_log_ready st_w Hlog_w) as [Hnd _].
      subst st1. cbn [log_chain append_all fold_left].
      fold (append_all lp (log_chain d1 log_line)
              (append_file lp entry (with_log cwd st_w))).
      eapply append_all_is_file, append_file_content.
    - subst st1. rewrite append_all_content.
      cbn [log_chain]. rewrite concat_lines_cons.
      by apply write_entry_found. }
  split; [done|]. split.
  - rewrite (content_of_ext st_w).
    + subst st_w. unfold content_of. simpl. by rewrite lookup_insert_eq.
    + subst st1. apply logged_other. done.
  - intros y. by apply write_to_file_duplicate.
Qed.

End LogFacts.

(** ** Instances of the theorems, and inputs on which the code differs *)

Section Instances.

Import LineEditor Example.

Lemma log_resolves_example :
  safe_join (WORKING_DIRECTORY cwd) [LOG_FILE] = Return (LOG_FILE_PATH cwd).
Proof. reflexivity. Defined.

Lemma log_ready_fresh : log_ready cwd fresh.
Proof. split; vm_compute; [discriminate|reflexivity]. Defined.

Lemma split_file_ends_iff_step_positive_witness :
  ((10 <= 10 ->
      (forall n, length (Chunker.take_from n "abc" 10 10 0) = n)
      /\ (forall fuel, Chunker.split_file fuel "abc" 10 10 = None))
   /\ (10 < 10 ->
         exists chunks, Chunker.split_file 4 "abc" 10 10 = Some chunks)).
Proof. apply (split_file_ends_iff_step_positive "abc" 10 10). discriminate. Defined.

(** C6 as stated fails: with [max_length = 10] and [overlap = 10] the first
    request gets the chunk "abc" and leaves the generator where it was, so
    that every later request gets it again. *)
Lemma split_file_no_guard :
  Chunker.next "abc" 10 10 0 = Some ("abc", 0)
  /\ Chunker.take_from 5 "abc" 10 10 0 = ["abc"; "abc"; "abc"; "abc"; "abc"].
Proof. split; reflexivity. Qed.

(** C2: the duplicate check misses a write under a name with a carriage
    return.  On the fresh machine, [write_to_file('a\rb', 'x')] returns
    the message of success, the file holds "x" and the log file holds the
    entry ['write: a\rb\n'] as it was written; but [read_file] opens the
    log file in text mode, which gives ['write: a\nb\n'], so that
    [check_duplicate_operation] returns [False], and the second call,
    [write_to_file('a\rb', 'y')], returns the message of success as well
    and leaves "y" in the file. *)
Theorem write_twice_accepted_with_carriage_return :
  fst (write_to_file cwd 8 Example2.cr_name "x" fresh)
  = Return "File written to successfully."
  /\ content_of Example2.after_cr_write (ws Example2.cr_name) = "x"
  /\ PyStr.contains (log_entry_of "write" Example2.cr_name)
       (content_of Example2.after_cr_write (LOG_FILE_PATH cwd)) = true
  /\ PyStr.contains (log_entry_of "write" Example2.cr_name)
       (log_text cwd Example2.after_cr_write) = false
  /\ fst (check_duplicate_operation cwd 7 "write" Example2.cr_name
            Example2.after_cr_write)
     = Return false
  /\ fst (write_to_file cwd 8 Example2.cr_name "y" Example2.after_cr_write)
     = Return "File written to successfully."
  /\ content_of (snd (write_to_file cwd 8 Example2.cr_name "y"
                        Example2.after_cr_write))
       (ws Example2.cr_name) = "y".
Proof. repeat split; vm_compute; reflexivity. Qed.

Lemma write_twice_rejected_witness :
  fst (write_to_file cwd 8 "a.txt" "x" fresh)
  = Return "File written to successfully."
  /\ content_of (snd (write_to_file cwd 8 "a.txt" "x" fresh)) (ws "a.txt") = "x"
  /\ forall y,
       write_to_file cwd 8 "a.txt" y (snd (write_to_file cwd 8 "a.txt" "x" fresh))
       = (Return "Error: File has already been updated.",
          snd (write_to_file cwd 8 "a.txt" "x" fresh)).
Proof.
  destruct (write_twice_rejected cwd log_resolves_example 8 "a.txt" fresh)
    as [_ Hsecond]; [lia|].
  destruct (Hsecond 8%nat (ws "a.txt") "x") as (_ & Hcontent & Hdup).
  - lia.
  - reflexivity.
  - discriminate.
  - reflexivity.
  - reflexivity.
  - exact log_ready_fresh.
  - vm_compute. reflexivity.
  - split; [vm_compute; reflexivity|]. split; [exact Hcontent|exact Hdup].
Defined.

Lemma edit_line_error_writes_nothing_witness :
  fst (edit_line cwd 8 "b.txt" (LineStr "9") "delete" None None true with_file)
  = Return "Error: Line number 9 is out of range."
  /\ snd (edit_line cwd 8 "b.txt" (LineStr "9") "delete" None None true with_file)
     = with_file.
Proof.
  split; [vm_compute; reflexivity|].
  apply (edit_line_error_writes_nothing cwd 8 "b.txt" (LineStr "9") "delete"
           None None true with_file "Error: Line number 9 is out of range.").
  - vm_compute. reflexivity.
  - reflexivity.
Defined.

Lemma edit_line_backup_then_commit_witness :
  original_lines staged_insert
  = PyStr.lines_of (PyStr.universal_newlines (content_of with_file (ws "b.txt")))
  /\ history (snd (edit_line cwd 8 "b.txt" (LineStr "2") "insert" None (Some "X")
                     false with_file))
     = history with_file
       ++ [EvWrite (ws "b.txt" +:+ ".bak") three_lines;
           EvWrite (ws "b.txt")
             (PyStr.concat_lines (final_lines staged_insert))]
  /\ nodes (snd (edit_line cwd 8 "b.txt" (LineStr "2") "insert" None (Some "X")
                   false with_file)) !! (ws "b.txt" +:+ ".bak")
     = Some (File three_lines)
  /\ nodes (snd (edit_line cwd 8 "b.txt" (LineStr "2") "insert" None (Some "X")
                   false with_file)) !! ws "b.txt"
     = Some (File (PyStr.concat_lines (final_lines staged_insert))).
Proof.
  apply (edit_line_backup_then_commit cwd 7 "b.txt" (LineStr "2") "insert"
           None (Some "X") false with_file staged_insert).
  - vm_compute. reflexivity.
  - vm_compute. discriminate.
  - vm_compute. reflexivity.
Defined.

Lemma log_operation_logs_its_own_appends_witness :
  fst (log_operation cwd 8 "write" "a.txt" fresh) = Return tt
  /\ content_of (snd (log_operation cwd 8 "write" "a.txt" fresh)) (LOG_FILE_PATH cwd)
     = log_header +:+ log_entry_of "write" "a.txt" +:+ log_line +:+ log_line.
Proof.
  apply (log_operation_logs_its_own_appends cwd log_resolves_example 8
           "write" "a.txt" fresh).
  - exact log_ready_fresh.
  - lia.
Defined.

Lemma modify_replaces_every_occurrence_witness :
  apply_edits "modify" (Some "X") (Some "Y") [1] lines_before
  = Return (inr (final_lines staged_modify))
  /\ PyStr.replace ("aXbXc" +:+ PyStr.nl) "X" "Y"
     = "a" +:+ "Y" +:+ PyStr.replace ("bXc" +:+ PyStr.nl) "X" "Y".
Proof.
  apply (modify_replaces_every_occurrence "modify" "X" "Y" 1 [] lines_before
           ("aXbXc" +:+ PyStr.nl)).
  - by left.
  - lia.
  - reflexivity.
Defined.

(** C8 as stated fails: [modify] of "X" to "Y" on the line "aXbXc" changes
    the second "X" too, where replacing the first occurrence only would
    leave it. *)
Lemma modify_changes_later_occurrences :
  fst (edit_line cwd 8 "b.txt" (LineStr "1") "modify" (Some "X") (Some "Y")
         false with_file)
  = Return "File: b.txt, Action: Modify, Result: Success."
  /\ content_of (snd (edit_line cwd 8 "b.txt" (LineStr "1") "modify" (Some "X")
                        (Some "Y") false with_file)) (ws "b.txt")
     = "aYbYc" +:+ PyStr.nl +:+ "b" +:+ PyStr.nl +:+ "c" +:+ PyStr.nl
  /\ replace_first_occurrence ("aXbXc" +:+ PyStr.nl) "X" "Y"
     = "aYbXc" +:+ PyStr.nl
  /\ String.eqb (PyStr.replace ("aXbXc" +:+ PyStr.nl) "X" "Y")
       (replace_first_occurrence ("aXbXc" +:+ PyStr.nl) "X" "Y") = false.
Proof. repeat split; vm_compute; reflexivity. Qed.


Lemma edit_line_debug_raises_witness :
  fst (edit_line cwd 8 "b.txt" (LineStr "1") "modify" (Some "X") (Some "Y")
         true with_file)
  = Raise (NameError "difflib")
  /\ nodes (snd (edit_line cwd 8 "b.txt" (LineStr "1") "modify" (Some "X")
                   (Some "Y") true with_file)) !! ws "b.txt"
     = Some (File (PyStr.concat_lines (final_lines staged_modify))).
Proof.
  apply (edit_line_debug_raises cwd 7 "b.txt" (LineStr "1") "modify"
           (Some "X") (Some "Y") with_file staged_modify).
  - vm_compute. reflexivity.
  - vm_compute. discriminate.
  - vm_compute. reflexivity.
Defined.

End Instances.

(** ** Further properties of the chunker *)

Section SliceFacts.

Lemma str_take_nil (n : nat) : PyStr.take n "" = "".
Proof. by destruct n. Qed.

Lemma str_take_cons (n : nat) (c : ascii) (s : string) :
  PyStr.take (S n) (String c s) = String c (PyStr.take n s).
Proof. reflexivity. Qed.

Lemma str_drop_nil (n : nat) : PyStr.drop n "" = "".
Proof. by destruct n. Qed.

Lemma substring_take_drop (n m : nat) (s : string) :
  String.substring n m s = PyStr.take m (PyStr.drop n s).
Proof.
  revert s. induction n as [|n IH]; intros s; [done|].
  destruct s as [|c s]; simpl; [by rewrite str_take_nil|apply IH].
Qed.

Lemma str_take_drop (n : nat) (s : string) :
  PyStr.take n s +:+ PyStr.drop n s = s.
Proof.
  revert s. induction n as [|n IH]; intros s.
  - by destruct s.
  - destruct s as [|c s]; [done|].
    rewrite str_take_cons, append_cons. simpl. by rewrite IH.
Qed.

Lemma str_drop_drop (a b : nat) (s : string) :
  PyStr.drop a (PyStr.drop b s) = PyStr.drop (b + a) s.
Proof.
  revert s. induction b as [|b IH]; intros s; [done|].
  destruct s as [|c s]; simpl; [by rewrite str_drop_nil|apply IH].
Qed.

Lemma str_take_take (a b : nat) (s : string) :
  PyStr.take a (PyStr.take b s) = PyStr.take (Nat.min a b) s.
Proof.
  revert b s. induction a as [|a IH]; intros b s.
  - simpl. by destruct (PyStr.take b s), s.
  - destruct b as [|b]; [by destruct s|].
    destruct s as [|c s]; [done|].
    rewrite !str_take_cons. simpl Nat.min. by rewrite str_take_cons, IH.
Qed.

Lemma str_take_all (n : nat) (s : string) :
  (String.length s <= n)%nat -> PyStr.take n s = s.
Proof.
  revert s. induction n as [|n IH]; intros s Hle.
  - destruct s; [done|simpl in Hle; lia].
  - destruct s as [|c s]; [done|]. rewrite str_take_cons, IH; [done|simpl in Hle; lia].
Qed.

Lemma str_drop_all (n : nat) (s : string) :
  (String.length s <= n)%nat -> PyStr.drop n s = "".
Proof.
  revert s. induction n as [|n IH]; intros s Hle.
  - destruct s; [done|simpl in Hle; lia].
  - destruct s as [|c s]; [done|]. simpl. apply IH. simpl in Hle. lia.
Qed.

Lemma str_length_drop (n : nat) (s : string) :
  String.length (PyStr.drop n s) = (String.length s - n)%nat.
Proof.
  revert s. induction n as [|n IH]; intros s; [simpl; lia|].
  destruct s as [|c s]; [done|]. simpl. apply IH.
Qed.

(** A slice between two positions inside the string. *)
Lemma slice_inside (s : string) (i j : Z) :
  0 <= i <= j -> j <= Z.of_nat (String.length s) ->
  PyStr.slice s i j
  = PyStr.take (Z.to_nat (j - i)) (PyStr.drop (Z.to_nat i) s).
Proof.
  intros Hij Hj. unfold PyStr.slice, PyStr.slice_bound.
  destruct (Z.ltb_spec i 0); [lia|]. destruct (Z.ltb_spec j 0); [lia|].
  rewrite !Z.min_l by lia. apply substring_take_drop.
Qed.

End SliceFacts.

Section ChunkerCoverage.

Variable content : string.
Variables max_length overlap : Z.

Hypothesis overlap_nonneg : 0 <= overlap.
Hypothesis overlap_small : overlap < max_length.

Local Abbreviation len := (Z.of_nat (String.length content)).
Local Abbreviation step := (Z.to_nat (max_length - overlap)).

(** The first [max_length - overlap] characters of the chunk that starts
    at [start] are those of the content from [start] on. *)
Lemma next_chunk_head (start : Z) :
  0 <= start < len ->
  exists chunk,
    Chunker.next content max_length overlap start
    = Some (chunk, start + (max_length - overlap))
    /\ PyStr.take step chunk
       = PyStr.take step (PyStr.drop (Z.to_nat start) content).
Proof.
  intros Hstart. unfold Chunker.next.
  destruct (Z.ltb_spec start len); [|lia].
  eexists. split; [done|].
  destruct (Z.ltb_spec (start + max_length + overlap) len).
  - rewrite slice_inside by lia. rewrite str_take_take. f_equal. lia.
  - rewrite slice_inside by lia. rewrite str_take_take.
    rewrite <- (str_take_take step (Z.to_nat (len - start))).
    f_equal. apply str_take_all. rewrite str_length_drop. lia.
Qed.

Lemma run_from_covers (fuel : nat) (start : Z) (chunks : list string) :
  0 <= start ->
  Chunker.run_from fuel content max_length overlap start = Some chunks ->
  PyStr.concat_lines (PyStr.take step <$> chunks)
  = PyStr.drop (Z.to_nat start) content.
Proof.
  revert start chunks. induction fuel as [|fuel IH]; intros start chunks Hstart; [done|].
  simpl. destruct (Z.lt_ge_cases start len) as [Hlt|Hge].
  - destruct (next_chunk_head start) as (chunk & -> & Hhead); [lia|].
    destruct (Chunker.run_from fuel _ _ _ _) as [rest|] eqn:Hrest; [|done].
    intros [= <-]. rewrite fmap_cons, concat_lines_cons, Hhead.
    assert (0 <= start + (max_length - overlap)) as Hs by lia.
    rewrite (IH _ _ Hs Hrest).
    replace (Z.to_nat (start + (max_length - overlap)))
      with (Z.to_nat start + step)%nat by lia.
    rewrite <- str_drop_drop. apply str_take_drop.
  - rewrite next_outside by done. intros [= <-]. simpl.
    symmetry. apply str_drop_all. lia.
Qed.

(** How many chunks there are from [start] on. *)
Lemma run_from_count (fuel : nat) (start : Z) (chunks : list string) :
  Chunker.run_from fuel content max_length overlap start = Some chunks ->
  Z.of_nat (length chunks)
  = Z.max 0 ((len - start + (max_length - overlap) - 1) / (max_length - overlap)).
Proof.
  revert start chunks. induction fuel as [|fuel IH]; intros start chunks; [done|].
  simpl. destruct (Z.lt_ge_cases start len) as [Hlt|Hge].
  - destruct (next_inside content max_length overlap start Hlt) as [chunk ->].
    destruct (Chunker.run_from fuel _ _ _ _) as [rest|] eqn:Hrest; [|done].
    intros [= <-]. simpl length. rewrite Nat2Z.inj_succ, (IH _ _ Hrest).
    replace (len - start + (max_length - overlap) - 1)
      with ((len - (start + (max_length - overlap)) + (max_length - overlap) - 1)
            + 1 * (max_length - overlap)) by lia.
    rewrite Z.div_add by lia.
    assert (0 <= (len - (start + (max_length - overlap)) + (max_length - overlap) - 1)
                 / (max_length - overlap)) by (apply Z.div_pos; lia).
    lia.
  - rewrite next_outside by done. intros [= <-]. simpl.
    assert ((len - start + (max_length - overlap) - 1) / (max_length - overlap) <= 0);
      [|lia].
    apply Z.lt_succ_r, Z.div_lt_upper_bound; lia.
Qed.

End ChunkerCoverage.

(** X1: with [0 <= overlap < max_length] the list of chunks is complete
    after as many iterations as the content has characters and one more,
    and the first [max_length - overlap] characters of the chunks, one
    chunk after the other, are the content: no character is left out. *)
Theorem split_file_covers_content (content : string) (max_length overlap : Z) :
  0 <= overlap -> overlap < max_length ->
  exists chunks,
    Chunker.split_file (S (String.length content)) content max_length overlap
    = Some chunks
    /\ PyStr.concat_lines (PyStr.take (Z.to_nat (max_length - overlap)) <$> chunks)
       = content.
Proof.
  intros Hnonneg Hsmall.
  destruct (run_from_ends content max_length overlap (S (String.length content)) 0)
    as [chunks Hchunks]; [done|lia|].
  exists chunks. split; [done|].
  apply (run_from_covers content max_length overlap Hnonneg Hsmall
           (S (String.length content)) 0 chunks); [lia|done].
Qed.

(** X2: with [overlap < max_length] there are as many chunks as steps of
    [max_length - overlap] characters are needed to pass the content: its
    length divided by the step, rounded up. *)
Theorem split_file_chunk_count (content : string) (max_length overlap : Z) :
  overlap < max_length ->
  exists chunks,
    Chunker.split_file (S (String.length content)) content max_length overlap
    = Some chunks
    /\ Z.of_nat (length chunks)
       = (Z.of_nat (String.length content) + (max_length - overlap) - 1)
         / (max_length - overlap).
Proof.
  intros Hsmall.
  destruct (run_from_ends content max_length overlap (S (String.length content)) 0)
    as [chunks Hchunks]; [done|lia|].
  exists chunks. split; [done|].
  rewrite (run_from_count content max_length overlap Hsmall _ 0 chunks Hchunks).
  rewrite Z.sub_0_r. apply Z.max_r, Z.div_pos; lia.
Qed.

Section ChunkerExact.

Variable content : string.
Variable max_length : Z.
Hypothesis max_length_pos : 0 < max_length.

(** Without overlap, the chunk that starts at [start] is the next
    [max_length] characters, or what is left of the content. *)
Lemma next_chunk_exact (start : Z) :
  0 <= start < Z.of_nat (String.length content) ->
  Chunker.next content max_length 0 start
  = Some (PyStr.take (Z.to_nat max_length) (PyStr.drop (Z.to_nat start) content),
          start + (max_length - 0)).
Proof.
  intros Hstart. unfold Chunker.next.
  destruct (Z.ltb_spec start (Z.of_nat (String.length content))); [|lia].
  do 2 f_equal.
  destruct (Z.ltb_spec (start + max_length + 0) (Z.of_nat (String.length content))).
  - rewrite slice_inside by lia. f_equal. lia.
  - rewrite slice_inside by lia.
    by rewrite !str_take_all by (rewrite str_length_drop; lia).
Qed.

Lemma run_from_concat (fuel : nat) (start : Z) (chunks : list string) :
  0 <= start ->
  Chunker.run_from fuel content max_length 0 start = Some chunks ->
  PyStr.concat_lines chunks = PyStr.drop (Z.to_nat start) content
  /\ Forall (fun chunk => chunk <> ""
                          /\ Z.of_nat (String.length chunk) <= max_length) chunks.
Proof.
  revert start chunks. induction fuel as [|fuel IH]; intros start chunks Hstart; [done|].
  simpl. destruct (Z.lt_ge_cases start (Z.of_nat (String.length content))) as [Hlt|Hge].
  - rewrite next_chunk_exact by lia.
    destruct (Chunker.run_from fuel _ _ _ _) as [rest|] eqn:Hrest; [|done].
    intros [= <-].
    assert (0 <= start + (max_length - 0)) as Hs by lia.
    destruct (IH _ _ Hs Hrest) as [Hcat Hall]. split.
    + rewrite concat_lines_cons, Hcat.
      replace (Z.to_nat (start + (max_length - 0)))
        with (Z.to_nat start + Z.to_nat max_length)%nat by lia.
      rewrite <- str_drop_drop. apply str_take_drop.
    + constructor; [|done]. split.
      * intros Hempty. apply (f_equal String.length) in Hempty.
        pose proof (str_length_drop (Z.to_nat start) content) as Hd.
        destruct (Z.to_nat max_length) as [|n] eqn:Hn; [lia|].
        destruct (PyStr.drop (Z.to_nat start) content); [simpl in Hd; lia|done].
      * pose proof (f_equal String.length
                      (str_take_drop (Z.to_nat max_length)
                         (PyStr.drop (Z.to_nat start) content))) as Hsplit.
        rewrite length_append in Hsplit.
        destruct (Nat.le_gt_cases
                    (String.length (PyStr.drop (Z.to_nat start) content))
                    (Z.to_nat max_length)) as [Hshort|Hlong].
        -- rewrite str_take_all by done. lia.
        -- rewrite (str_length_drop (Z.to_nat max_length)) in Hsplit. lia.
  - rewrite next_outside by done. intros [= <-]. split; [|constructor].
    simpl. symmetry. apply str_drop_all. lia.
Qed.

End ChunkerExact.

(** X3: without overlap and with a positive [max_length], the chunks are
    not empty, have [max_length] characters at most, and give the content
    back when they are put together. *)
Theorem split_file_no_overlap_partitions (content : string) (max_length : Z) :
  0 < max_length ->
  exists chunks,
    Chunker.split_file (S (String.length content)) content max_length 0
    = Some chunks
    /\ PyStr.concat_lines chunks = content
    /\ Forall (fun chunk => chunk <> ""
                            /\ Z.of_nat (String.length chunk) <= max_length) chunks.
Proof.
  intros Hpos.
  destruct (run_from_ends content max_length 0 (S (String.length content)) 0)
    as [chunks Hchunks]; [done|lia|].
  exists chunks. split; [done|].
  apply (run_from_concat content max_length Hpos
           (S (String.length content)) 0 chunks); [lia|done].
Qed.

(** A content that fits in one step is the only chunk. *)
Lemma split_file_fits (fuel : nat) (content : string) (max_length overlap : Z) :
  content <> "" ->
  0 <= overlap ->
  Z.of_nat (String.length content) <= max_length - overlap ->
  Chunker.split_file (S (S fuel)) content max_length overlap = Some [content].
Proof.
  intros Hne Hnonneg Hfit.
  assert (0 < Z.of_nat (String.length content)) as Hlen.
  { destruct content; [done|]. simpl. lia. }
  unfold Chunker.split_file. cbn [Chunker.run_from]. unfold Chunker.next.
  destruct (Z.ltb_spec 0 (Z.of_nat (String.length content))); [|lia].
  destruct (Z.ltb_spec (0 + max_length + overlap) (Z.of_nat (String.length content)));
    [lia|].
  destruct (Z.ltb_spec (0 + (max_length - overlap)) (Z.of_nat (String.length content)));
    [lia|]. simpl.
  rewrite slice_inside by lia. simpl PyStr.drop.
  rewrite str_take_all by lia. done.
Qed.

(** X4: a content that is not empty and not longer than one step,
    [max_length - overlap] with [overlap >= 0], is yielded whole, as the
    only chunk. *)
Theorem split_file_single_chunk (fuel : nat) (content : string)
    (max_length overlap : Z) :
  content <> "" ->
  0 <= overlap ->
  Z.of_nat (String.length content) <= max_length - overlap ->
  Chunker.split_file (S (S fuel)) content max_length overlap = Some [content].
Proof. apply split_file_fits. Qed.

(** ** Further properties of the line editor *)

Section EditLoopFacts.

Import LineEditor.

Lemma in_range (n : Z) (lines : list string) :
  1 <= n <= Z.of_nat (length lines) ->
  (n <? 1) || (n >? Z.of_nat (length lines)) = false.
Proof.
  intros Hn. destruct (Z.ltb_spec n 1); [lia|].
  destruct (Z.gtb_spec n (Z.of_nat (length lines))); [lia|done].
Qed.

Lemma out_of_range (n : Z) (lines : list string) :
  Z.of_nat (length lines) < n ->
  (n <? 1) || (n >? Z.of_nat (length lines)) = true.
Proof.
  intros Hn. destruct (Z.gtb_spec n (Z.of_nat (length lines))); [|lia].
  apply orb_true_r.
Qed.

(** X5: an insert at a line within the list puts the new text, with a line
    feed, at that line and makes the list one longer; a delete at the same
    line number afterwards gives the list back. *)
Theorem insert_then_delete_restores (old_text old_text' new_text' : option string)
    (new : string) (n : Z) (lines : list string) :
  1 <= n <= Z.of_nat (length lines) ->
  exists lines',
    apply_edits "insert" old_text (Some new) [n] lines = Return (inr lines')
    /\ length lines' = S (length lines)
    /\ lines' !! Z.to_nat (n - 1) = Some (new +:+ PyStr.nl)
    /\ apply_edits "delete" old_text' new_text' [n] lines' = Return (inr lines).
Proof.
  intros Hn. exists (list_insert_at (Z.to_nat (n - 1)) (new +:+ PyStr.nl) lines).
  assert (length (list_insert_at (Z.to_nat (n - 1)) (new +:+ PyStr.nl) lines)
          = S (length lines)) as Hlen.
  { unfold list_insert_at. rewrite length_app, length_take. simpl.
    rewrite length_drop. lia. }
  split; [|split; [done|split]].
  - cbn [apply_edits]. by rewrite in_range.
  - unfold list_insert_at. rewrite lookup_app_r; rewrite length_take; [|lia].
    by replace (Z.to_nat (n - 1) - Z.to_nat (n - 1) `min` length lines)%nat
      with 0%nat by lia.
  - cbn [apply_edits]. rewrite in_range by lia.
    change (mem "delete" ["add"; "insert"]) with false.
    change (mem "delete" ["replace"; "modify"]) with false.
    cbn [bool_decide decide_rel]. rewrite bool_decide_true by done.
    unfold list_insert_at. rewrite delete_take_drop.
    assert (length (take (Z.to_nat (n - 1)) lines) = Z.to_nat (n - 1)) as Hi
      by (rewrite length_take; lia).
    rewrite take_app_length' by done.
    rewrite cons_middle, app_assoc.
    rewrite drop_app_length' by (rewrite length_app; simpl; lia).
    by rewrite take_drop.
Qed.

End EditLoopFacts.

Section EditBatchFacts.

Import LineEditor.

Lemma delete_action_step (old_text new_text : option string) (n : Z) (rest : list Z)
    (lines : list string) :
  1 <= n <= Z.of_nat (length lines) ->
  apply_edits "delete" old_text new_text (n :: rest) lines
  = apply_edits "delete" old_text new_text rest (delete (Z.to_nat (n - 1)) lines).
Proof.
  intros Hn. cbn [apply_edits]. rewrite in_range by done.
  change (mem "delete" ["add"; "insert"]) with false.
  change (mem "delete" ["replace"; "modify"]) with false.
  cbn [bool_decide decide_rel]. by rewrite bool_decide_true by done.
Qed.

(** X6: the line numbers of one call are applied one after the other to
    the list as the earlier ones left it: deleting line [n] [k] times
    removes the [k] lines from [n] on, when there are that many, and
    returns the out of range error, when there are fewer. *)
Theorem delete_same_line_repeatedly (old_text new_text : option string) (n : Z)
    (k : nat) (lines : list string) :
  1 <= n ->
  ((Z.to_nat (n - 1) + k <= length lines)%nat ->
   apply_edits "delete" old_text new_text (replicate k n) lines
   = Return (inr (take (Z.to_nat (n - 1)) lines
                  ++ drop (Z.to_nat (n - 1) + k) lines)))
  /\ ((length lines < Z.to_nat (n - 1) + k)%nat -> k <> 0%nat ->
      apply_edits "delete" old_text new_text (replicate k n) lines
      = Return (inl ("Error: Line number " +:+ PyStr.of_Z n
                     +:+ " is out of range."))).
Proof.
  intros Hn. revert lines. induction k as [|k IH]; intros lines.
  { split; [|done]. intros _. simpl. by rewrite Nat.add_0_r, take_drop. }
  split.
  - intros Hk. cbn [replicate]. rewrite delete_action_step by lia.
    assert (length (delete (Z.to_nat (n - 1)) lines) = pred (length lines)) as Hdel.
    { rewrite length_delete; [lia|]. apply lookup_lt_is_Some. lia. }
    rewrite (proj1 (IH (delete (Z.to_nat (n - 1)) lines))) by lia.
    do 2 f_equal. rewrite delete_take_drop.
    assert (length (take (Z.to_nat (n - 1)) lines) = Z.to_nat (n - 1)) as Hi
      by (rewrite length_take; lia).
    rewrite take_app_length' by done. f_equal.
    rewrite drop_app_ge by lia. rewrite Hi, drop_drop. f_equal. lia.
  - intros Hk _. cbn [replicate].
    destruct (Z.lt_ge_cases (Z.of_nat (length lines)) n) as [Hout|Hin].
    + cbn [apply_edits]. by rewrite out_of_range.
    + rewrite delete_action_step by lia.
      assert (length (delete (Z.to_nat (n - 1)) lines) = pred (length lines)) as Hdel.
      { rewrite length_delete; [lia|]. apply lookup_lt_is_Some. lia. }
      apply (proj2 (IH (delete (Z.to_nat (n - 1)) lines))); lia.
Qed.

(** X7: [add] is another name of [insert] and [replace] another name of
    [modify]: the loop does the same for either name. *)
Theorem action_aliases (old_text new_text : option string) (line_numbers : list Z)
    (lines : list string) :
  apply_edits "add" old_text new_text line_numbers lines
  = apply_edits "insert" old_text new_text line_numbers lines
  /\ apply_edits "replace" old_text new_text line_numbers lines
     = apply_edits "modify" old_text new_text line_numbers lines.
Proof.
  revert lines. induction line_numbers as [|n rest IH]; intros lines; [done|].
  cbn [apply_edits].
  change (mem "add" ["add"; "insert"]) with true.
  change (mem "insert" ["add"; "insert"]) with true.
  change (mem "replace" ["add"; "insert"]) with false.
  change (mem "modify" ["add"; "insert"]) with false.
  change (mem "replace" ["replace"; "modify"]) with true.
  change (mem "modify" ["replace"; "modify"]) with true.
  cbv iota.
  destruct (_ || _); [done|]. split.
  - destruct new_text; [apply IH|done].
  - destruct (lines !! _); [|done]. destruct old_text; [|done].
    destruct (negb _); [done|]. destruct new_text; [apply IH|done].
Qed.

End EditBatchFacts.

Section BackupFacts.

Import LineEditor.

Variable cwd : string.

(** Reading a text by lines and writing the lines gives the text. *)
Lemma concat_lines_lines_of (s : string) :
  PyStr.concat_lines (PyStr.lines_of s) = s.
Proof.
  induction s as [|c s IH]; [done|].
  cbn [PyStr.lines_of]. case_bool_decide as Hc.
  - rewrite concat_lines_cons, IH. by subst c.
  - destruct (PyStr.lines_of s) as [|l ls].
    + simpl in IH. by subst s.
    + rewrite concat_lines_cons in *. rewrite append_cons. by rewrite IH.
Qed.

(** X8: the backup that a call writes holds the content of the file as it
    was read, with every line ending as a line feed, which is the content
    itself only when the file had no carriage return; and a call whose
    loop changed no line still writes that to the file. *)
Theorem edit_line_backup_is_text_as_read (d : nat) (filename : string)
    (line_numbers : line_spec) (action : string) (old_text new_text : option string)
    (debug : bool) (st : state) (s : staged) :
  fst (edit_line_stage cwd d filename line_numbers action old_text new_text st)
  = Return (inr s) ->
  can_write st (staged_path s +:+ ".bak") ->
  let st' :=
    snd (edit_line cwd (S d) filename line_numbers action old_text new_text debug st) in
  nodes st' !! (staged_path s +:+ ".bak")
  = Some (File (PyStr.universal_newlines (content_of st (staged_path s))))
  /\ (final_lines s = original_lines s ->
      nodes st' !! staged_path s
      = Some (File (PyStr.universal_newlines (content_of st (staged_path s))))).
Proof.
  intros Hstage [Hbak Hdir].
  destruct (edit_line_stage_passed cwd _ _ _ _ _ _ _ _ Hstage)
    as (text & ln & nums & _ & Hfile & Horig & _).
  pose proof (edit_line_stage_reads_only cwd d filename line_numbers action
                old_text new_text st) as Hst.
  unfold edit_line, bind.
  destruct (edit_line_stage _ _ _ _ _ _ _ st) as [o st1].
  simpl in Hst, Hstage. subst st1 o.
  rewrite (edit_line_commit_writes _ _ _ _ _ text) by done. cbn [snd nodes].
  assert (content_of st (staged_path s) = text) as ->
    by (unfold content_of; by rewrite Hfile).
  split.
  - rewrite lookup_insert_ne.
    + by rewrite lookup_insert_eq, Horig, concat_lines_lines_of.
    + intros Heq. by apply (append_suffix_ne (staged_path s) ".bak").
  - intros ->. by rewrite lookup_insert_eq, Horig, concat_lines_lines_of.
Qed.

End BackupFacts.

(** ** Further properties of the file store *)

Section MoreStringFacts.

Lemma prefix_append_l (e a r : string) :
  String.prefix e a = true -> String.prefix e (a +:+ r) = true.
Proof.
  revert a. induction e as [|c e IH]; intros a He; [by destruct (a +:+ r)|].
  destruct a as [|c' a]; [done|]. rewrite append_cons.
  cbn [String.prefix] in *. destruct (ascii_dec c c'); [by apply IH|done].
Qed.

(** What occurs in a text occurs in the text with more behind it. *)
Lemma contains_append_l (e a r : string) :
  PyStr.contains e a = true -> PyStr.contains e (a +:+ r) = true.
Proof.
  induction a as [|c a IH]; cbn [PyStr.contains].
  - rewrite orb_false_r. intros He. destruct e; [|done]. by destruct r.
  - intros [He|He]%orb_true_iff; rewrite append_cons; cbn [PyStr.contains].
    + rewrite <- append_cons, prefix_append_l by done. done.
    + rewrite IH by done. apply orb_true_r.
Qed.


(** An entry that was appended to a log is found in what is read of it,
    when it has no carriage return and does not start with a line feed. *)
Lemma entry_found (entry base rest : string) :
  no_cr entry ->
  String.prefix PyStr.nl (entry +:+ rest) = false ->
  PyStr.contains entry (PyStr.universal_newlines (base +:+ entry +:+ rest)) = true.
Proof.
  intros Hcr Hnl.
  rewrite universal_newlines_append by done.
  rewrite universal_newlines_no_cr by done.
  apply contains_append.
Qed.

End MoreStringFacts.

Section StoreFacts.

Variable cwd : string.

Hypothesis log_resolves :
  safe_join (WORKING_DIRECTORY cwd) [LOG_FILE] = Return (LOG_FILE_PATH cwd).

Local Abbreviation lp := (LOG_FILE_PATH cwd).
Local Abbreviation wd := (WORKING_DIRECTORY cwd).

Lemma read_file_existing (d : nat) (filename p content : string) (st : state) :
  (2 <= d)%nat ->
  safe_join wd [filename] = Return p ->
  nodes st !! p = Some (File content) ->
  read_file cwd d filename st = (Return (PyStr.universal_newlines content), st).
Proof.
  intros Hd Hp Hfile. destruct d as [|[|d]]; [lia|lia|].
  unfold read_file, try_except, bind, call, lift, ret, open_read.
  by rewrite Hp, Hfile.
Qed.

Lemma read_file_reads_only (d : nat) (filename : string) :
  reads_only (read_file cwd d filename).
Proof.
  destruct d as [|d]; [done|]. unfold read_file.
  apply reads_only_try; [|intros e; apply reads_only_ret].
  apply reads_only_bind; [apply reads_only_call|intros filepath].
  apply reads_only_bind; [apply reads_only_open_read|intros content].
  apply reads_only_ret.
Qed.




(** The log after [log_operation] records the operation, for an entry
    without carriage return that does not start with a line feed. *)
Lemma log_operation_records (d : nat) (operation filename : string) (st : state) :
  log_ready cwd st ->
  no_cr (log_entry_of operation filename) ->
  (forall rest, String.prefix PyStr.nl (log_entry_of operation filename +:+ rest) = false) ->
  recorded cwd
    (append_all lp (log_chain (S (S d)) (log_entry_of operation filename))
       (with_log cwd st))
    operation filename.
Proof.
  intros Hlog Hcr Hnl.
  set (entry := log_entry_of operation filename).
  exists (content_of (append_all lp (log_chain (S (S d)) entry) (with_log cwd st)) lp).
  split.
  - cbn [log_chain append_all fold_left].
    fold (append_all lp (log_chain d log_line)
            (append_file lp entry (with_log cwd st))).
    eapply append_all_is_file, append_file_content.
  - rewrite append_all_content. cbn [log_chain]. rewrite concat_lines_cons.
    by apply entry_found.
Qed.

Lemma delete_entry_no_cr (filename : string) :
  no_cr filename -> no_cr (log_entry_of "delete" filename).
Proof.
  intros Hf. unfold log_entry_of.
  apply (no_cr_append "delete"); [done|].
  apply (no_cr_append ": "); [done|]. by apply no_cr_append.
Qed.

Lemma can_write_remove (p q : string) (h : list event) (st : state) (c : string) :
  nodes st !! p = Some (File c) -> p <> q -> can_write st q ->
  can_write {| nodes := delete p (nodes st); history := h |} q.
Proof.
  intros Hp Hne [Hq Hqd]. split; simpl.
  - by rewrite lookup_delete_ne.
  - rewrite lookup_delete_ne; [done|]. intros Heq. congruence.
Qed.

End StoreFacts.

Section StoreProperties.

Variable cwd : string.

Hypothesis log_resolves :
  safe_join (WORKING_DIRECTORY cwd) [LOG_FILE] = Return (LOG_FILE_PATH cwd).

Local Abbreviation lp := (LOG_FILE_PATH cwd).
Local Abbreviation wd := (WORKING_DIRECTORY cwd).

(** X9: after a write that returned the message of success (to a file
    that is not the log file, in a directory that exists, with the log
    file writable), [read_file] on the same name returns the text that was
    written, with its line endings read as line feeds. *)
Theorem write_then_read (d1 d2 : nat) (filename text p : string) (st : state) :
  (4 <= d1)%nat -> (2 <= d2)%nat ->
  safe_join wd [filename] = Return p ->
  p <> lp ->
  nodes st !! posixpath.dirname p = Some Dir ->
  log_ready cwd st ->
  fst (write_to_file cwd d1 filename text st)
  = Return "File written to successfully." ->
  let st1 := snd (write_to_file cwd d1 filename text st) in
  read_file cwd d2 filename st1
  = (Return (PyStr.universal_newlines text), st1).
Proof.
  intros Hd1 Hd2 Hp Hne Hdir Hlog Hok. cbv zeta.
  destruct (write_to_file_done cwd log_resolves d1 filename text p st
              Hd1 Hp Hdir Hlog Hok) as (st_w & Hst_w & _ & ->).
  apply (read_file_existing cwd d2 filename p); [done|done|].
  rewrite logged_other by done. subst st_w. simpl. by rewrite lookup_insert_eq.
Qed.

(** X10: for a name that [safe_join] refuses, no operation changes the
    file system: [read_file], [append_to_file], [write_to_file] and
    [delete_file] return the error as a message (the last two after the
    duplicate check, which may answer first), and [edit_line] raises it. *)
Theorem path_escape_changes_nothing (d : nat) (filename text : string) (e : exn)
    (line_numbers : LineEditor.line_spec) (action : string)
    (old_text new_text : option string) (debug : bool) (st : state) :
  (4 <= d)%nat ->
  safe_join wd [filename] = Raise e ->
  read_file cwd d filename st = (Return ("Error: " +:+ str_exn e), st)
  /\ append_to_file cwd d filename text st = (Return ("Error: " +:+ str_exn e), st)
  /\ write_to_file cwd d filename text st
     = (Return (if PyStr.contains (log_entry_of "write" filename) (log_text cwd st)
                then "Error: File has already been updated."
                else "Error: " +:+ str_exn e), st)
  /\ delete_file cwd d filename st
     = (Return (if PyStr.contains (log_entry_of "delete" filename) (log_text cwd st)
                then "Error: File has already been deleted."
                else "Error: " +:+ str_exn e), st)
  /\ LineEditor.edit_line cwd d filename line_numbers action old_text new_text
       debug st
     = (Raise e, st).
Proof.
  intros Hd Hp. destruct d as [|[|d]]; [lia|lia|]. repeat split.
  - unfold read_file, try_except, bind, call, lift, ret. by rewrite Hp.
  - rewrite append_to_file_unfold.
    unfold try_except, bind, call, lift, ret. by rewrite Hp.
  - unfold write_to_file, bind.
    rewrite (check_duplicate_operation_log cwd log_resolves) by lia.
    destruct (PyStr.contains _ _); [done|].
    unfold try_except, bind, call, lift, ret. by rewrite Hp.
  - unfold delete_file, bind.
    rewrite (check_duplicate_operation_log cwd log_resolves) by lia.
    destruct (PyStr.contains _ _); [done|].
    unfold try_except, bind, call, lift, ret. by rewrite Hp.
  - unfold LineEditor.edit_line, LineEditor.edit_line_stage, bind, call, lift.
    by rewrite Hp.
Qed.

(** What a delete that returned the message of success has done. *)
Lemma delete_file_done (d : nat) (filename p : string) (st : state) :
  (4 <= d)%nat ->
  safe_join wd [filename] = Return p ->
  p <> lp ->
  log_ready cwd st ->
  fst (delete_file cwd d filename st) = Return "File deleted successfully." ->
  exists content st_r,
    nodes st !! p = Some (File content)
    /\ st_r = {| nodes := delete p (nodes st); history := history st |}
    /\ log_ready cwd st_r
    /\ snd (delete_file cwd d filename st)
       = append_all lp (log_chain (d - 2) (log_entry_of "delete" filename))
           (with_log cwd st_r).
Proof.
  intros Hd Hp Hne Hlog. destruct d as [|[|d]]; [lia|lia|].
  unfold delete_file, bind.
  rewrite (check_duplicate_operation_log cwd log_resolves) by lia.
  destruct (PyStr.contains _ _); [done|].
  unfold try_except, bind, call, lift, ret, os_remove. rewrite Hp.
  destruct (nodes st !! p) as [[content|]|] eqn:Hnode; [|done|done].
  assert (log_ready cwd {| nodes := delete p (nodes st); history := history st |})
    as Hlog' by by apply (can_write_remove p lp (history st) st content).
  rewrite (log_operation_log cwd log_resolves) by done.
  destruct d as [|d]; [lia|]. intros _. exists content. eexists.
  split; [done|]. split; [done|]. split; [done|].
  cbn [snd]. by replace (S (S (S d)) - 2)%nat with (S d) by lia.
Qed.

(** X11: after a delete that returned the message of success, the file is
    gone and the delete is recorded, so that a second delete of the same
    name returns the duplicate error and changes nothing. *)
Theorem delete_twice_rejected (d1 d2 : nat) (filename p : string) (st : state) :
  (4 <= d1)%nat -> (4 <= d2)%nat ->
  safe_join wd [filename] = Return p ->
  p <> lp ->
  no_cr filename ->
  log_ready cwd st ->
  fst (delete_file cwd d1 filename st) = Return "File deleted successfully." ->
  let st1 := snd (delete_file cwd d1 filename st) in
  nodes st1 !! p = None
  /\ delete_file cwd d2 filename st1
     = (Return "Error: File has already been deleted.", st1).
Proof.
  intros Hd1 Hd2 Hp Hne Hcr Hlog Hok. cbv zeta.
  destruct (delete_file_done d1 filename p st Hd1 Hp Hne Hlog Hok)
    as (content & st_r & Hfile & Hst_r & Hlog_r & ->).
  destruct d1 as [|[|[|[|d1]]]]; try lia.
  replace (S (S (S (S d1))) - 2)%nat with (S (S d1)) by lia.
  split.
  - rewrite logged_other by done. subst st_r. simpl. by rewrite lookup_delete_eq.
  - destruct d2 as [|d2]; [lia|]. unfold delete_file, bind.
    rewrite (check_duplicate_operation_log cwd log_resolves) by lia.
    destruct (log_operation_records cwd d1 "delete" filename st_r Hlog_r)
      as (c & Hnode & Hin); [by apply delete_entry_no_cr|done|].
    unfold log_text. by rewrite Hnode, Hin.
Qed.


End StoreProperties.

Section StoreEdgeCases.

Variable cwd : string.

Hypothesis log_resolves :
  safe_join (WORKING_DIRECTORY cwd) [LOG_FILE] = Return (LOG_FILE_PATH cwd).

Local Abbreviation lp := (LOG_FILE_PATH cwd).
Local Abbreviation wd := (WORKING_DIRECTORY cwd).

(** X13: the duplicate check looks for the entry anywhere in the log, also
    inside the entry of another operation: an append to a file named
    "write: " followed by a name (with four frames or more for every
    call, a name without carriage return, a target that can be written
    and the log file writable) returns the message of success, and a
    write to that name then returns the duplicate error, though the log
    holds no write at all. *)
Theorem append_entry_blocks_write (d1 d2 : nat) (filename text text' p : string)
    (st : state) :
  (4 <= d1)%nat -> (4 <= d2)%nat ->
  safe_join wd ["write: " +:+ filename] = Return p ->
  can_write st p ->
  log_ready cwd st ->
  no_cr filename ->
  let r1 := append_to_file cwd d1 ("write: " +:+ filename) text st in
  fst r1 = Return "Text appended successfully."
  /\ write_to_file cwd d2 filename text' (snd r1)
     = (Return "Error: File has already been updated.", snd r1).
Proof.
  intros Hd1 Hd2 Hp Hw Hlog Hcr. cbv zeta.
  destruct d1 as [|[|[|[|d1]]]]; try lia.
  rewrite (append_to_file_other cwd log_resolves (S (S (S d1))) _ _ p)
    by (done || lia).
  split; [done|]. cbn [snd].
  replace (S (S (S d1)) - 1)%nat with (S (S d1)) by lia.
  set (st_a := append_file p text st).
  apply (write_to_file_duplicate cwd log_resolves); [done|].
  exists (content_of (append_all lp
            (log_chain (S (S d1)) (log_entry_of "append" ("write: " +:+ filename)))
            (with_log cwd st_a)) lp).
  split.
  - cbn [log_chain append_all fold_left]. eapply append_all_is_file.
    apply append_file_content.
  - rewrite append_all_content. cbn [log_chain]. rewrite concat_lines_cons.
    change (log_entry_of "append" ("write: " +:+ filename))
      with ("append: " +:+ log_entry_of "write" filename).
    rewrite !append_assoc, <- (append_assoc _ "append: ").
    apply entry_found; [by apply write_entry_no_cr|done].
Qed.

(** [os.makedirs] for a directory that is missing in a directory that
    exists makes that one directory. *)
Lemma os_makedirs_one (dir : string) (st : state) :
  nodes st !! dir = None ->
  nodes st !! posixpath.dirname dir = Some Dir ->
  posixpath.basename dir <> "" ->
  os_makedirs dir st
  = (Return tt, {| nodes := <[dir := Dir]> (nodes st);
                   history := history st ++ [EvMkdir dir] |}).
Proof.
  intros Hnone Hparent Hbase. unfold os_makedirs.
  destruct dir as [|c dir]; [done|]. cbn [String.length os_makedirs_from].
  unfold posixpath.split.
  rewrite (bool_decide_false (posixpath.basename (String c dir) = "")) by done.
  cbv iota beta. unfold bind, os_path_exists. rewrite Hparent.
  rewrite (bool_decide_true (is_Some (Some Dir))) by by eexists.
  rewrite !andb_false_r. unfold ret, os_mkdir. by rewrite Hnone, Hparent.
Qed.

(** X14: a write to a file in a directory that is missing, in a directory
    that exists, makes the directory first and then writes the file. *)
Theorem write_to_file_makes_directory (d : nat) (filename text p : string)
    (st : state) :
  (4 <= d)%nat ->
  safe_join wd [filename] = Return p ->
  PyStr.contains (log_entry_of "write" filename) (log_text cwd st) = false ->
  nodes st !! p = None ->
  nodes st !! posixpath.dirname p = None ->
  nodes st !! posixpath.dirname (posixpath.dirname p) = Some Dir ->
  posixpath.basename (posixpath.dirname p) <> "" ->
  posixpath.dirname p <> lp ->
  log_ready cwd st ->
  let r := write_to_file cwd d filename text st in
  fst r = Return "File written to successfully."
  /\ nodes (snd r) !! posixpath.dirname p = Some Dir
  /\ nodes (snd r) !! p = Some (File text).
Proof.
  intros Hd Hp Hnew Hfile Hdir Hparent Hbase Hdirlp Hlog. cbv zeta.
  destruct d as [|[|d]]; [lia|lia|].
  assert (p <> posixpath.dirname p) as Hpdir.
  { intros Heq. rewrite <- Heq in Hparent. congruence. }
  assert (p <> lp) as Hplp.
  { intros ->. destruct Hlog as [_ Hlogdir]. congruence. }
  set (dir := posixpath.dirname p) in *.
  unfold write_to_file, bind.
  rewrite (check_duplicate_operation_log cwd log_resolves) by lia. rewrite Hnew.
  unfold try_except, bind, call, lift, os_path_exists. rewrite Hp. fold dir.
  rewrite bool_decide_false by (rewrite Hdir; by intros [? ?]).
  cbn [negb]. rewrite os_makedirs_one by done.
  set (st_d := {| nodes := <[dir := Dir]> (nodes st);
                  history := history st ++ [EvMkdir dir] |}).
  assert (log_ready cwd st_d) as Hlog_d.
  { destruct Hlog as [Hl Hld]. split; simpl.
    - by rewrite lookup_insert_ne.
    - rewrite lookup_insert_ne; [done|]. intros Heq. congruence. }
  assert (can_write st_d p) as Hw.
  { split; simpl; fold dir.
    - rewrite lookup_insert_ne by done. by rewrite Hfile.
    - by rewrite lookup_insert_eq. }
  rewrite open_write_ok by apply Hw.
  set (st_w := {| nodes := <[p := File text]> (nodes st_d); history := _ |}).
  rewrite (log_operation_log cwd log_resolves) by by apply can_write_put.
  destruct d as [|d]; [lia|]. unfold ret. cbn [fst snd].
  split; [done|]. rewrite !logged_other by done. subst st_w st_d. simpl.
  split.
  - rewrite lookup_insert_ne by done. by rewrite lookup_insert_eq.
  - by rewrite lookup_insert_eq.
Qed.

End StoreEdgeCases.

(** ** Properties of [ingest_file] *)

Section IngestFacts.

Variable cwd : string.

Lemma ingest_loop_adds (filename : string) (num_chunks : nat) (chunks : list string) :
  forall (i : nat) (w : world),
    world_fs (ingest_loop filename num_chunks i chunks w) = world_fs w
    /\ world_memory (ingest_loop filename num_chunks i chunks w)
       = world_memory w
         ++ imap (fun j chunk => memory_to_add filename (i + j) num_chunks chunk)
              chunks.
Proof.
  induction chunks as [|chunk rest IH]; intros i w.
  - simpl. by rewrite app_nil_r.
  - cbn [ingest_loop]. destruct (IH (S i) (memory_add
        (memory_to_add filename i num_chunks chunk)
        (print ("Ingesting chunk " +:+ PyStr.of_Z (Z.of_nat i + 1) +:+ " / "
                +:+ PyStr.of_Z (Z.of_nat num_chunks) +:+ " into memory") w)))
      as [-> ->].
    split; [done|]. simpl. rewrite <- app_assoc. simpl.
    rewrite Nat.add_0_r. do 2 f_equal.
    apply imap_ext. intros j c _. simpl. f_equal. lia.
Qed.

(** X15: when [read_file] returns a text, be it the content of the file or
    an error message, and the list of its chunks is complete,
    [ingest_file] returns, leaves the file system as it was, and has added
    to the memory one text for every chunk, in their order, each with the
    file name, the number of the chunk from 1 and the number of chunks. *)
Theorem ingest_file_adds_every_chunk (d fuel : nat) (filename : string)
    (max_length overlap : Z) (w : world) (content : string) (chunks : list string) :
  fst (read_file cwd d filename (world_fs w)) = Return content ->
  Chunker.split_file fuel content max_length overlap = Some chunks ->
  exists w',
    ingest_file cwd (S d) fuel filename max_length overlap w = Some (Return tt, w')
    /\ world_fs w' = world_fs w
    /\ world_memory w'
       = world_memory w
         ++ imap (fun i chunk => memory_to_add filename i (length chunks) chunk)
              chunks.
Proof.
  intros Hread Hsplit. unfold ingest_file. cbn [print world_fs].
  pose proof (read_file_reads_only cwd d filename (world_fs w)) as Hst.
  destruct (read_file cwd d filename (world_fs w)) as [o st].
  simpl in Hread, Hst. subst o st. rewrite Hsplit.
  eexists. split; [done|]. cbn [print world_fs world_memory].
  destruct (ingest_loop_adds filename (length chunks) chunks 0
              (print ("File length: " +:+ PyStr.of_Z (Z.of_nat (String.length content))
                      +:+ " characters")
                 (with_fs (world_fs w) (print ("Working with file " +:+ filename) w))))
    as [Hfs Hmem].
  split; [by rewrite Hfs|]. by rewrite Hmem.
Qed.

(** A path that names nothing in a directory that exists does not exist. *)
Lemma missing_error_in_directory (st : state) (p : string) :
  nodes st !! posixpath.dirname p = Some Dir ->
  missing_error st p = FileNotFoundError p.
Proof.
  intros Hdir. unfold missing_error.
  destruct (String.length p); [done|]. simpl. by rewrite Hdir.
Qed.

(** A path below a regular file is refused for the file that is no
    directory. *)
Lemma missing_error_below_file (st : state) (p content : string) :
  nodes st !! p = None ->
  nodes st !! posixpath.dirname p = Some (File content) ->
  missing_error st p = NotADirectoryError p.
Proof.
  intros Hnone Hfile. unfold missing_error.
  destruct p as [|c p].
  - change (posixpath.dirname "") with "" in Hfile. congruence.
  - cbn [String.length nearest_ancestor]. by rewrite Hfile.
Qed.

(** X16: [ingest_file] does not tell a failed read from a content: for a
    path that names nothing (with two frames or more below the call, an
    overlap that is not negative and an error message that fits in one
    chunk), it adds the error message of [read_file] to the memory, as
    the only part of the file: the message of [ENOENT] when the directory
    of the path exists, that of [ENOTDIR] when the path lies directly
    below a regular file. *)
Theorem ingest_file_of_missing_file (d fuel : nat) (filename p : string)
    (max_length overlap : Z) (w : world) :
  (2 <= d)%nat ->
  safe_join (WORKING_DIRECTORY cwd) [filename] = Return p ->
  nodes (world_fs w) !! p = None ->
  0 <= overlap ->
  Z.of_nat (String.length ("Error: " +:+ str_exn (missing_error (world_fs w) p)))
  <= max_length - overlap ->
  exists w',
    ingest_file cwd (S d) (S (S fuel)) filename max_length overlap w
    = Some (Return tt, w')
    /\ world_memory w'
       = world_memory w
         ++ [memory_to_add filename 0 1
               ("Error: " +:+ str_exn (missing_error (world_fs w) p))]
    /\ (nodes (world_fs w) !! posixpath.dirname p = Some Dir ->
        missing_error (world_fs w) p = FileNotFoundError p)
    /\ ((exists content,
           nodes (world_fs w) !! posixpath.dirname p = Some (File content)) ->
        missing_error (world_fs w) p = NotADirectoryError p).
Proof.
  intros Hd Hp Hnone Hnonneg Hfit.
  destruct d as [|[|d]]; [lia|lia|].
  unfold ingest_file. cbn [print world_fs].
  unfold read_file, try_except, bind, call, lift, ret, open_read.
  rewrite Hp, Hnone.
  rewrite split_file_fits; [|by destruct (missing_error _ _)|done|done].
  eexists. split; [done|]. split; [done|].
  split; [apply missing_error_in_directory|].
  intros [content Hfile]. by apply (missing_error_below_file _ _ content).
Qed.

End IngestFacts.

(** ** A further property of the path guard *)

Lemma join_last_absolute (base b : string) (before : list string) :
  PyStr.startswith b "/" = true ->
  posixpath.join base (before ++ [b]) = b.
Proof.
  intros Hb. unfold posixpath.join. rewrite fold_left_app. simpl.
  unfold posixpath.join_step, posixpath.sep_s. by rewrite Hb.
Qed.

(** X17: a segment that starts with the separator makes [safe_join] forget
    the base and every segment before it: a last segment that is absolute
    is accepted exactly when it spells out the base itself, whatever the
    segments before it are. *)
Theorem safe_join_last_absolute_segment (base b : string) (before : list string) :
  PyStr.startswith b "/" = true ->
  safe_join base (before ++ [b])
  = if String.prefix base (posixpath.normpath b)
    then Return (posixpath.normpath b)
    else Raise (ValueError escape_msg).
Proof.
  intros Hb. unfold safe_join. rewrite join_last_absolute by done. cbv zeta.
  destruct (commonprefix_pair base (posixpath.normpath b)) as (r & -> & Hiff).
  simpl. destruct (String.prefix base _) eqn:Hpre.
  - rewrite bool_decide_true by by apply Hiff. done.
  - rewrite bool_decide_false; [done|]. intros Hr. apply Hiff in Hr. congruence.
Qed.

(** ** Edge cases of the loop and of [ingest_file] *)

(** X18: a line number below 1 or behind the last line ends the call with
    the out of range error, whatever the action is and whatever follows:
    [insert] cannot add a line behind the last one, and no line number is
    accepted for a file without lines. *)
Theorem line_outside_is_rejected (action : string) (old_text new_text : option string)
    (n : Z) (rest : list Z) (lines : list string) :
  n < 1 \/ Z.of_nat (length lines) < n ->
  LineEditor.apply_edits action old_text new_text (n :: rest) lines
  = Return (inl ("Error: Line number " +:+ PyStr.of_Z n +:+ " is out of range.")).
Proof.
  intros Hn. cbn [LineEditor.apply_edits].
  destruct (Z.ltb_spec n 1); [done|].
  destruct (Z.gtb_spec n (Z.of_nat (length lines))); [done|lia].
Qed.

Section IngestEdgeCases.

Variable cwd : string.

(** X19: a file that exists and is empty gives no chunk, for every
    [max_length] and [overlap]: [ingest_file] returns and adds nothing to
    the memory. *)
Theorem ingest_file_of_empty_file (d fuel : nat) (filename p : string)
    (max_length overlap : Z) (w : world) :
  (2 <= d)%nat ->
  safe_join (WORKING_DIRECTORY cwd) [filename] = Return p ->
  nodes (world_fs w) !! p = Some (File "") ->
  exists w',
    ingest_file cwd (S d) (S fuel) filename max_length overlap w
    = Some (Return tt, w')
    /\ world_memory w' = world_memory w
    /\ world_fs w' = world_fs w.
Proof.
  intros Hd Hp Hfile. destruct d as [|[|d]]; [lia|lia|].
  unfold ingest_file. cbn [print world_fs].
  unfold read_file, try_except, bind, call, lift, ret, open_read.
  rewrite Hp, Hfile. eexists. split; [done|]. done.
Qed.

(** X20: when [read_file] returns a text that is not empty and [overlap]
    is not below [max_length], the list of chunks is never complete:
    however many iterations of the generator are allowed, [ingest_file] has
    not got to its loop over the chunks, and so has added nothing to the
    memory. *)
Theorem ingest_file_never_returns (d fuel : nat) (filename : string)
    (max_length overlap : Z) (w : world) (content : string) :
  fst (read_file cwd d filename (world_fs w)) = Return content ->
  content <> "" ->
  max_length <= overlap ->
  ingest_file cwd (S d) fuel filename max_length overlap w = None.
Proof.
  intros Hread Hne Hstep. unfold ingest_file. cbn [print world_fs].
  destruct (read_file cwd d filename (world_fs w)) as [o st].
  simpl in Hread. subst o.
  unfold Chunker.split_file. rewrite run_from_stuck; [done|done|lia|].
  destruct content; [done|]. simpl. lia.
Qed.

End IngestEdgeCases.

(** ** The duplicate check without a log file *)

Section NoLogFacts.

Lemma no_lf_cons (c : ascii) (s : string) :
  no_lf (String c s) <-> c <> PyStr.LF /\ no_lf s.
Proof.
  unfold no_lf, PyStr.nl. cbn [PyStr.contains String.prefix].
  destruct (ascii_dec PyStr.LF c) as [<-|Hne].
  - destruct s; simpl; split; try done; by intros [? _].
  - simpl. split; [by intros ?|by intros [_ ?]].
Qed.

Lemma no_lf_append (s t : string) : no_lf s -> no_lf t -> no_lf (s +:+ t).
Proof.
  intros Hs Ht. induction s as [|c s IH]; [done|].
  rewrite append_cons. apply no_lf_cons. apply no_lf_cons in Hs as [? ?]. auto.
Qed.

(** [repr] writes a line feed as a backslash and the letter n. *)
Lemma repr_char_no_lf (quote c : ascii) :
  quote = "'"%char \/ quote = PyStr.double_quote ->
  no_lf (PyStr.repr_char quote c).
Proof.
  intros [-> | ->]; destruct c as [[] [] [] [] [] [] [] []]; vm_compute; reflexivity.
Qed.

Lemma repr_body_no_lf (quote : ascii) (s : string) :
  quote = "'"%char \/ quote = PyStr.double_quote ->
  no_lf (PyStr.repr_body quote s).
Proof.
  intros Hq. induction s as [|c s IH]; [done|].
  cbn [PyStr.repr_body]. apply no_lf_append; [by apply repr_char_no_lf|done].
Qed.

Lemma repr_no_lf (s : string) : no_lf (PyStr.repr s).
Proof.
  unfold PyStr.repr.
  destruct (_ && _).
  - rewrite append_cons. apply no_lf_cons. split; [done|].
    apply no_lf_append; [apply repr_body_no_lf; by right|done].
  - rewrite append_cons. apply no_lf_cons. split; [done|].
    apply no_lf_append; [apply repr_body_no_lf; by left|done].
Qed.

Lemma prefix_split (e s : string) :
  String.prefix e s = true -> exists b, s = e +:+ b.
Proof.
  revert s. induction e as [|c e IH]; intros s He; [by exists s|].
  destruct s as [|c' s]; [done|]. cbn [String.prefix] in He.
  destruct (ascii_dec c c') as [<-|]; [|done].
  destruct (IH s He) as [b ->]. by exists b.
Qed.

Lemma contains_split (e s : string) :
  PyStr.contains e s = true -> exists a b, s = a +:+ e +:+ b.
Proof.
  induction s as [|c s IH]; cbn [PyStr.contains].
  - rewrite orb_false_r. intros [b ->]%prefix_split. by exists "", b.
  - intros [[b ->]%prefix_split|He]%orb_true_iff; [by exists "", b|].
    destruct (IH He) as (a & b & ->). by exists (String c a), b.
Qed.

Lemma contains_append_r (x a t : string) :
  PyStr.contains x t = true -> PyStr.contains x (a +:+ t) = true.
Proof.
  intros Ht. induction a as [|c a IH]; [done|].
  rewrite append_cons. cbn [PyStr.contains]. rewrite IH. apply orb_true_r.
Qed.

(** A text without line feed holds no text with one. *)
Lemma no_lf_contains (e s : string) :
  no_lf s -> PyStr.contains PyStr.nl e = true -> PyStr.contains e s = false.
Proof.
  intros Hs He. destruct (PyStr.contains e s) eqn:Hin; [|done].
  destruct (contains_split e s Hin) as (a & b & ->).
  unfold no_lf in Hs. rewrite contains_append_r in Hs; [done|].
  by apply contains_append_l.
Qed.

Lemma log_entry_has_lf (operation filename : string) :
  PyStr.contains PyStr.nl (log_entry_of operation filename) = true.
Proof.
  unfold log_entry_of. apply contains_append_r, contains_append_r.
  rewrite <- (append_nil_r PyStr.nl) at 2. apply contains_append.
Qed.

End NoLogFacts.

Section NoLog.

Variable cwd : string.

Hypothesis log_resolves :
  safe_join (WORKING_DIRECTORY cwd) [LOG_FILE] = Return (LOG_FILE_PATH cwd).

(** X21: without a log file, [check_duplicate_operation] searches the error
    message of [read_file], and finds no entry in it, because every entry
    ends with a line feed and the message has none: it returns [False] for
    every operation and every file name, and changes nothing. *)
Theorem check_duplicate_without_log (d : nat) (operation filename : string)
    (st : state) :
  (3 <= d)%nat ->
  nodes st !! LOG_FILE_PATH cwd = None ->
  check_duplicate_operation cwd d operation filename st = (Return false, st).
Proof.
  intros Hd Hnone.
  rewrite (check_duplicate_operation_log cwd log_resolves) by done.
  unfold log_text. rewrite Hnone. do 2 f_equal.
  apply no_lf_contains; [|apply log_entry_has_lf].
  apply (no_lf_append "Error: "); [done|].
  destruct (missing_error st (LOG_FILE_PATH cwd)) eqn:Herr;
    try (unfold missing_error in Herr;
         by destruct (nearest_ancestor _ _ _) as [[|]|]).
  - simpl str_exn. unfold os_error.
    apply (no_lf_append "[Errno "); [done|].
    apply no_lf_append; [done|].
    apply (no_lf_append "] "); [done|].
    apply (no_lf_append "No such file or directory"); [done|].
    apply (no_lf_append ": "); [done|]. apply repr_no_lf.
  - simpl str_exn. unfold os_error.
    apply (no_lf_append "[Errno "); [done|].
    apply no_lf_append; [done|].
    apply (no_lf_append "] "); [done|].
    apply (no_lf_append "Not a directory"); [done|].
    apply (no_lf_append ": "); [done|]. apply repr_no_lf.
Qed.

End NoLog.

(** ** Instances of the further properties *)

Section MoreInstances.

Import LineEditor Example Example2.

Lemma split_file_covers_content_witness :
  exists chunks,
    Chunker.split_file 11 "abcdefghij" 4 1 = Some chunks
    /\ PyStr.concat_lines (PyStr.take (Z.to_nat (4 - 1)) <$> chunks) = "abcdefghij".
Proof. apply (split_file_covers_content "abcdefghij" 4 1); lia. Defined.

Lemma split_file_chunk_count_witness :
  exists chunks,
    Chunker.split_file 11 "abcdefghij" 4 1 = Some chunks
    /\ Z.of_nat (length chunks) = (Z.of_nat 10 + (4 - 1) - 1) / (4 - 1).
Proof. apply (split_file_chunk_count "abcdefghij" 4 1). lia. Defined.

Lemma split_file_no_overlap_partitions_witness :
  exists chunks,
    Chunker.split_file 11 "abcdefghij" 4 0 = Some chunks
    /\ PyStr.concat_lines chunks = "abcdefghij"
    /\ Forall (fun chunk => chunk <> "" /\ Z.of_nat (String.length chunk) <= 4) chunks.
Proof. apply (split_file_no_overlap_partitions "abcdefghij" 4). lia. Defined.

Lemma split_file_single_chunk_witness :
  Chunker.split_file 2 "abc" 10 2 = Some ["abc"].
Proof.
  apply (split_file_single_chunk 0 "abc" 10 2); [discriminate|lia|simpl; lia].
Defined.

Lemma insert_then_delete_restores_witness :
  exists lines',
    apply_edits "insert" None (Some "X") [2] lines_before = Return (inr lines')
    /\ length lines' = 4%nat
    /\ lines' !! Z.to_nat (2 - 1) = Some ("X" +:+ PyStr.nl)
    /\ apply_edits "delete" None None [2] lines' = Return (inr lines_before).
Proof.
  apply (insert_then_delete_restores None None None "X" 2 lines_before).
  simpl. lia.
Defined.

Lemma delete_same_line_repeatedly_witness :
  apply_edits "delete" None None [2; 2] lines_before
  = Return (inr ["aXbXc" +:+ PyStr.nl])
  /\ apply_edits "delete" None None [2; 2; 2] lines_before
     = Return (inl "Error: Line number 2 is out of range.").
Proof.
  split.
  - apply (proj1 (delete_same_line_repeatedly None None 2 2 lines_before
                    ltac:(lia))).
    simpl. lia.
  - apply (proj2 (delete_same_line_repeatedly None None 2 3 lines_before
                    ltac:(lia))); simpl; lia.
Defined.

Lemma edit_line_backup_is_text_as_read_witness :
  nodes (snd (edit_line cwd 8 "c.txt" (LineStr "1") "modify" (Some "a") (Some "a")
                false with_crlf_file)) !! (ws "c.txt" +:+ ".bak")
  = Some (File lf_text)
  /\ nodes (snd (edit_line cwd 8 "c.txt" (LineStr "1") "modify" (Some "a") (Some "a")
                   false with_crlf_file)) !! ws "c.txt"
     = Some (File lf_text).
Proof.
  destruct (edit_line_backup_is_text_as_read cwd 7 "c.txt" (LineStr "1") "modify"
              (Some "a") (Some "a") false with_crlf_file staged_same)
    as [Hbak Hfile].
  - vm_compute. reflexivity.
  - split; vm_compute; [discriminate|reflexivity].
  - split; [exact Hbak|]. apply Hfile. reflexivity.
Defined.

Lemma write_then_read_witness :
  read_file cwd 8 "a.txt" (snd (write_to_file cwd 8 "a.txt" "x" fresh))
  = (Return "x", snd (write_to_file cwd 8 "a.txt" "x" fresh)).
Proof.
  apply (write_then_read cwd log_resolves_example 8 8 "a.txt" "x" (ws "a.txt") fresh).
  - lia.
  - lia.
  - reflexivity.
  - discriminate.
  - reflexivity.
  - exact log_ready_fresh.
  - vm_compute. reflexivity.
Defined.

Lemma path_escape_changes_nothing_witness :
  read_file cwd 8 "../x" fresh = (Return ("Error: " +:+ escape_msg), fresh)
  /\ append_to_file cwd 8 "../x" "t" fresh
     = (Return ("Error: " +:+ escape_msg), fresh)
  /\ write_to_file cwd 8 "../x" "t" fresh
     = (Return ("Error: " +:+ escape_msg), fresh)
  /\ delete_file cwd 8 "../x" fresh = (Return ("Error: " +:+ escape_msg), fresh)
  /\ edit_line cwd 8 "../x" (LineStr "1") "delete" None None true fresh
     = (Raise (ValueError escape_msg), fresh).
Proof.
  apply (path_escape_changes_nothing cwd log_resolves_example 8 "../x" "t"
           (ValueError escape_msg) (LineStr "1") "delete" None None true fresh).
  - lia.
  - reflexivity.
Defined.

Lemma delete_twice_rejected_witness :
  nodes (snd (delete_file cwd 8 "b.txt" with_file)) !! ws "b.txt" = None
  /\ delete_file cwd 8 "b.txt" (snd (delete_file cwd 8 "b.txt" with_file))
     = (Return "Error: File has already been deleted.",
        snd (delete_file cwd 8 "b.txt" with_file)).
Proof.
  apply (delete_twice_rejected cwd log_resolves_example 8 8 "b.txt" (ws "b.txt")
           with_file).
  - lia.
  - lia.
  - reflexivity.
  - discriminate.
  - reflexivity.
  - split; vm_compute; [discriminate|reflexivity].
  - vm_compute. reflexivity.
Defined.


Lemma append_entry_blocks_write_witness :
  fst (append_to_file cwd 8 "write: a.txt" "t" fresh)
  = Return "Text appended successfully."
  /\ write_to_file cwd 8 "a.txt" "x" (snd (append_to_file cwd 8 "write: a.txt" "t" fresh))
     = (Return "Error: File has already been updated.",
        snd (append_to_file cwd 8 "write: a.txt" "t" fresh)).
Proof.
  apply (append_entry_blocks_write cwd log_resolves_example 8 8 "a.txt" "t" "x"
           (ws "write: a.txt") fresh).
  - lia.
  - lia.
  - reflexivity.
  - split; vm_compute; [discriminate|reflexivity].
  - exact log_ready_fresh.
  - reflexivity.
Defined.

Lemma write_to_file_makes_directory_witness :
  fst (write_to_file cwd 8 "sub/a.txt" "x" fresh)
  = Return "File written to successfully."
  /\ nodes (snd (write_to_file cwd 8 "sub/a.txt" "x" fresh)) !! ws "sub" = Some Dir
  /\ nodes (snd (write_to_file cwd 8 "sub/a.txt" "x" fresh)) !! ws "sub/a.txt"
     = Some (File "x").
Proof.
  apply (write_to_file_makes_directory cwd log_resolves_example 8 "sub/a.txt" "x"
           (ws "sub/a.txt") fresh).
  - lia.
  - reflexivity.
  - vm_compute. reflexivity.
  - vm_compute. reflexivity.
  - vm_compute. reflexivity.
  - vm_compute. reflexivity.
  - vm_compute. discriminate.
  - vm_compute. discriminate.
  - exact log_ready_fresh.
Defined.

Lemma ingest_file_adds_every_chunk_witness :
  exists w',
    ingest_file cwd 8 2 "b.txt" 4000 200 (world_of with_file) = Some (Return tt, w')
    /\ world_fs w' = with_file
    /\ world_memory w' = [memory_to_add "b.txt" 0 1 three_lines].
Proof.
  apply (ingest_file_adds_every_chunk cwd 7 2 "b.txt" 4000 200 (world_of with_file)
           three_lines [three_lines]).
  - vm_compute. reflexivity.
  - vm_compute. reflexivity.
Defined.

Lemma ingest_file_of_missing_file_witness :
  exists w',
    ingest_file cwd 8 2 "b.txt/x" 4000 200 (world_of with_file)
    = Some (Return tt, w')
    /\ world_memory w'
       = world_memory (world_of with_file)
         ++ [memory_to_add "b.txt/x" 0 1
               ("Error: "
                +:+ str_exn (missing_error (world_fs (world_of with_file))
                               (ws "b.txt/x")))]
    /\ (nodes (world_fs (world_of with_file)) !! posixpath.dirname (ws "b.txt/x")
        = Some Dir ->
        missing_error (world_fs (world_of with_file)) (ws "b.txt/x")
        = FileNotFoundError (ws "b.txt/x"))
    /\ ((exists content,
           nodes (world_fs (world_of with_file)) !! posixpath.dirname (ws "b.txt/x")
           = Some (File content)) ->
        missing_error (world_fs (world_of with_file)) (ws "b.txt/x")
        = NotADirectoryError (ws "b.txt/x")).
Proof.
  apply (ingest_file_of_missing_file cwd 7 0 "b.txt/x" (ws "b.txt/x") 4000 200
           (world_of with_file)).
  - lia.
  - reflexivity.
  - vm_compute. reflexivity.
  - lia.
  - vm_compute. discriminate.
Defined.

(** The two messages on the machine of the examples: [nope.txt] names
    nothing in the working directory, [b.txt/x] lies below the regular
    file [b.txt]. *)
Example read_file_of_missing_file :
  read_file cwd 8 "nope.txt" fresh = (Return missing_message, fresh)
  /\ missing_message
     = "Error: [Errno 2] No such file or directory: "
       +:+ "'/home/agent/auto_gpt_workspace/nope.txt'".
Proof. split; vm_compute; reflexivity. Qed.

Example read_file_below_regular_file :
  read_file cwd 8 "b.txt/x" with_file = (Return below_file_message, with_file)
  /\ below_file_message
     = "Error: [Errno 20] Not a directory: "
       +:+ "'/home/agent/auto_gpt_workspace/b.txt/x'".
Proof. split; vm_compute; reflexivity. Qed.

Example delete_file_below_regular_file :
  delete_file cwd 8 "b.txt/x" with_file
  = (Return ("Error: [Errno 20] Not a directory: "
             +:+ "'/home/agent/auto_gpt_workspace/b.txt/x'"), with_file).
Proof. vm_compute. reflexivity. Qed.

Example ingest_file_below_regular_file :
  exists w',
    ingest_file cwd 8 2 "b.txt/x" 4000 200 (world_of with_file)
    = Some (Return tt, w')
    /\ world_memory w' = [memory_to_add "b.txt/x" 0 1 below_file_message].
Proof. eexists. split; vm_compute; reflexivity. Qed.

Lemma safe_join_last_absolute_segment_witness :
  safe_join "/sandbox" (["docs"] ++ ["/etc/passwd"])
  = Raise (ValueError escape_msg).
Proof.
  apply (safe_join_last_absolute_segment "/sandbox" "/etc/passwd" ["docs"]).
  reflexivity.
Defined.

Lemma line_outside_is_rejected_witness :
  apply_edits "insert" None (Some "X") [4] lines_before
  = Return (inl "Error: Line number 4 is out of range.").
Proof.
  apply (line_outside_is_rejected "insert" None (Some "X") 4 [] lines_before).
  right. simpl. lia.
Defined.

Lemma ingest_file_of_empty_file_witness :
  exists w',
    ingest_file cwd 8 1 "e.txt" 10 10 (world_of with_empty_file) = Some (Return tt, w')
    /\ world_memory w' = []
    /\ world_fs w' = with_empty_file.
Proof.
  apply (ingest_file_of_empty_file cwd 7 0 "e.txt" (ws "e.txt") 10 10
           (world_of with_empty_file)).
  - lia.
  - reflexivity.
  - vm_compute. reflexivity.
Defined.

Lemma ingest_file_never_returns_witness :
  ingest_file cwd 8 1000 "b.txt" 10 10 (world_of with_file) = None.
Proof.
  apply (ingest_file_never_returns cwd 7 1000 "b.txt" 10 10 (world_of with_file)
           three_lines).
  - vm_compute. reflexivity.
  - discriminate.
  - lia.
Defined.

End MoreInstances.

Lemma check_duplicate_without_log_witness :
  check_duplicate_operation Example.cwd 8 "write" "a.txt" Example.fresh
  = (Return false, Example.fresh).
Proof.
  apply (check_duplicate_without_log Example.cwd log_resolves_example 8
           "write" "a.txt" Example.fresh).
  - lia.
  - vm_compute. reflexivity.
Defined.
